(** * ItemService: purchase, creation and lookup of placed items

    A shallow embedding of
    [src/ServerScriptService/Services/Item/ItemService.ts] (roblox-ts).

    The service works on Roblox instances, which are mutable objects held by
    reference.  The embedding keeps them in a store ([heap]) addressed by
    reference, threads the store through every engine call, and records the
    calls made on instances in the order the source makes them.  The user
    component a method receives is passed in and handed back with the
    outcome.  Amounts of currency are integers ([Z]), and the debit rounds
    as the subtraction of doubles does; coordinates are rationals ([Q])
    where Luau has doubles.  [debug.profilebegin] and [debug.profileend]
    are left out. *)

From Stdlib Require Import ZArith QArith Qround Lia.
From stdpp Require Import base functions gmap list strings pretty.

Local Open Scope string_scope.

(** ** Roblox value types *)

Module Vector3.
Record t := new { X : Q; Y : Q; Z : Q }.
Definition zero : t := new 0 0 0.
End Vector3.

Module CFrame.
(** A coordinate frame: a position and the three axes of its rotation. *)
Record t := mk {
  Position : Vector3.t;
  XVector : Vector3.t;
  YVector : Vector3.t;
  ZVector : Vector3.t }.

(** [new CFrame(pos)]: the frame at [pos] with the identity rotation. *)
Definition new (pos : Vector3.t) : t :=
  mk pos (Vector3.new 1 0 0) (Vector3.new 0 1 0) (Vector3.new 0 0 1).
End CFrame.

(** ** Instances *)

Record BasePart := { Size : Vector3.t; Anchored : bool }.

Inductive AttributeValue :=
| AttrNumber (n : Z)
| AttrString (s : string).

(** A [Model] instance.  [PrimaryPart] is the part the model is anchored on;
    [Parts] are its other [BasePart] descendants.  [Pivot] is the frame
    [PivotTo] moves. *)
Record Model := {
  Name : string;
  Pivot : CFrame.t;
  Attributes : gmap string AttributeValue;
  Tags : gset string;
  PrimaryPart : option BasePart;
  Parts : list BasePart }.

Record Player := { UserId : Z }.

(** ** Components *)

Module ItemComponent.
(** Modelled from the spec: [ItemComponent] is declared outside this file.
    It is the handle of a placed item; its attributes are the owner id, the
    instance id and the template id that [CreateItem] stamps on the model. *)
Record Attributes := {
  User : Z;
  ItemInstanceUUID : string;
  ItemRegisterUUID : string }.

(** [instance] is the reference of the model the component is bound to. *)
Record t := { instance : nat; attributes : Attributes }.
End ItemComponent.

Module UserComponent.
(** Modelled from the spec: [UserComponent] is declared outside this file.
    [attributes] holds the numeric attributes of the user, among them one
    [Balance_<currency>] per currency, an integer amount; [PlacedItems] is
    the [Map<string, ItemComponent>] from instance id to the item the user
    placed. *)
Record t := {
  instance : Player;
  attributes : string → Z;
  PlacedItems : gmap string ItemComponent.t }.
End UserComponent.

(** ** Enums and results *)

(** Modelled from the spec: the exchange types of a price table, BUY and
    its counterpart; the enum is declared outside this file. *)
Inductive PricingExchangeType := BUY | SELL.

(** Modelled from the spec: the two members of [GenericError] the service
    uses, the spec's NotFound and Forbidden.  The other member of the error
    union, [ItemMovementError], is never built here. *)
Inductive GenericError := NOT_FOUND | FORBIDDEN.

(** [Result<T, E>] of rust-classes. *)
Inductive Result (T E : Type) :=
| Ok (value : T)
| Err (error : E).
Arguments Ok {T E} value.
Arguments Err {T E} error.

(** How a call ends: it returns a value, or an error is thrown ([assert],
    indexing [nil]). *)
Inductive Completion (A : Type) :=
| Return (a : A)
| Throw (message : string).
Arguments Return {A} a.
Arguments Throw {A} message.

(** ** The item registry *)

(** Modelled from the spec: a register of [ItemRegistry], declared outside
    this file.  It holds the template model (asserted to exist by the
    constructor) and the price table, from exchange type to the amount per
    currency; a currency the table does not list costs nothing. *)
Record Register := {
  model : option Model;
  price : PricingExchangeType → option (gmap string Z) }.

(** ** The world *)

(** Calls on instances, in the order they are made. *)
Inductive Call :=
| CallClone (r : nat)
| CallPivotTo (r : nat) (cframe : CFrame.t)
| CallSetAttribute (r : nat) (key : string) (value : AttributeValue)
| CallSetName (r : nat) (name : string)
| CallSetParentWorkspace (r : nat)
| CallAddTag (r : nat) (tag : string)
| CallGetComponent (r : nat).

(** [heap]: every instance created so far, by reference.  [Workspace]: the
    children of [game.Workspace], in the order they were parented.
    [guids]: how many GUIDs [HttpService] has handed out.  [calls]: the
    calls made so far. *)
Record World := {
  heap : list Model;
  Workspace : list nat;
  guids : nat;
  calls : list Call }.

Definition log (c : Call) (w : World) : World :=
  {| heap := heap w; Workspace := Workspace w; guids := guids w;
     calls := calls w ++ [c] |}.

Definition update (r : nat) (f : Model → Model) (w : World) : World :=
  {| heap := alter f r (heap w); Workspace := Workspace w; guids := guids w;
     calls := calls w |}.

(** [model.Clone()]: a fresh instance, a copy of [m], with no parent. *)
Definition Clone (m : Model) (w : World) : nat * World :=
  let r := length (heap w) in
  (r, log (CallClone r)
        {| heap := heap w ++ [m]; Workspace := Workspace w;
           guids := guids w; calls := calls w |}).

Definition PivotTo (r : nat) (cframe : CFrame.t) (w : World) : World :=
  log (CallPivotTo r cframe)
    (update r (λ m, {| Name := Name m; Pivot := cframe;
                       Attributes := Attributes m; Tags := Tags m;
                       PrimaryPart := PrimaryPart m; Parts := Parts m |}) w).

Definition SetAttribute (r : nat) (key : string) (value : AttributeValue)
    (w : World) : World :=
  log (CallSetAttribute r key value)
    (update r (λ m, {| Name := Name m; Pivot := Pivot m;
                       Attributes := <[key := value]> (Attributes m);
                       Tags := Tags m;
                       PrimaryPart := PrimaryPart m; Parts := Parts m |}) w).

Definition SetName (r : nat) (name : string) (w : World) : World :=
  log (CallSetName r name)
    (update r (λ m, {| Name := name; Pivot := Pivot m;
                       Attributes := Attributes m; Tags := Tags m;
                       PrimaryPart := PrimaryPart m; Parts := Parts m |}) w).

(** [model.Parent = Workspace]. *)
Definition SetParentWorkspace (r : nat) (w : World) : World :=
  log (CallSetParentWorkspace r)
    {| heap := heap w; Workspace := Workspace w ++ [r]; guids := guids w;
       calls := calls w |}.

(** [CollectionService.AddTag(model, tag)]. *)
Definition AddTag (r : nat) (tag : string) (w : World) : World :=
  log (CallAddTag r tag)
    (update r (λ m, {| Name := Name m; Pivot := Pivot m;
                       Attributes := Attributes m; Tags := {[tag]} ∪ Tags m;
                       PrimaryPart := PrimaryPart m; Parts := Parts m |}) w).

(** [Workspace:FindFirstChild(name)]: the first child with that name. *)
Definition FindFirstChild (w : World) (name : string) : option nat :=
  List.find (λ r, match heap w !! r with
                  | Some m => bool_decide (Name m = name)
                  | None => false
                  end) (Workspace w).

(** ** The constructor *)

Definition anchor (p : BasePart) : BasePart :=
  {| Size := Size p; Anchored := true |}.

(** What one turn of the constructor's loop does to a template that passed
    both assertions: every [BasePart] descendant is anchored and the model
    is pivoted to the origin. *)
Definition prepare (m : Model) : Model :=
  {| Name := Name m; Pivot := CFrame.new Vector3.zero;
     Attributes := Attributes m; Tags := Tags m;
     PrimaryPart := anchor <$> PrimaryPart m;
     Parts := anchor <$> Parts m |}.

(** The loop over [pairs(ItemRegistry)]: the first register without a model,
    or whose model has no primary part, fails its assertion. *)
Fixpoint constructor_loop (entries : list (string * Register))
    (registry : gmap string Register) : Completion (gmap string Register) :=
  match entries with
  | [] => Return registry
  | (key, register) :: rest =>
      match model register with
      | None =>
          Throw ("Item model for item with id '" +:+ key +:+ "' does not exist!")
      | Some m =>
          match PrimaryPart m with
          | None => Throw ("Item model " +:+ Name m +:+ " has no primary part!")
          | Some _ =>
              constructor_loop rest
                (<[key := {| model := Some (prepare m);
                             price := price register |}]> registry)
          end
      end
  end.

(** [new ItemService()]: the registry as the constructor leaves it, or the
    assertion that failed. *)
Definition constructor (registry : gmap string Register)
    : Completion (gmap string Register) :=
  constructor_loop (map_to_list registry) registry.

(** ** The service *)

(** What a method leaves behind: the user component and the world as they
    are when the call ends, and how it ended. *)
Record Outcome := {
  user_after : UserComponent.t;
  world_after : World;
  completion : Completion (Result ItemComponent.t GenericError) }.

(** The attribute that holds the balance of a currency:
    [`Balance_${currency}`]. *)
Definition Balance (currency : string) : string := "Balance_" +:+ currency.

(** *** Luau numbers that hold integers

    A Luau number is a double.  The doubles that hold an integer are the
    integers whose binary expansion fits 53 significant bits: [exponent z]
    is how many low bits of [z] a double has no room for, and [z] is a
    double when those bits are zero.  The exponent is not bounded above:
    there is no infinity. *)

Definition exponent (z : Z) : Z := Z.max 0 (Z.log2 (Z.abs z) - 52).

Definition is_number (z : Z) : bool := (z mod 2 ^ exponent z =? 0)%Z.

(** The double nearest to [z], ties to the even significand. *)
Definition round64 (z : Z) : Z :=
  let ulp := (2 ^ exponent z)%Z in
  let q := (Z.abs z / ulp)%Z in
  let r := (Z.abs z mod ulp)%Z in
  let q' :=
    if (2 * r <? ulp)%Z then q
    else if (ulp <? 2 * r)%Z then (q + 1)%Z
    else if Z.even q then q else (q + 1)%Z in
  (Z.sgn z * (q' * ulp))%Z.

(** [a - b] on numbers: the exact difference rounded to the nearest
    double.  Integers that are no doubles are no values the code can hold;
    on them the difference is left exact. *)
Definition number_sub (a b : Z) : Z :=
  if is_number a && is_number b then round64 (a - b) else (a - b)%Z.

(** [user.attributes[key] -= amount]. *)
Definition debit (user : UserComponent.t) (key : string) (amount : Z)
    : UserComponent.t :=
  {| UserComponent.instance := UserComponent.instance user;
     UserComponent.attributes :=
       alter (λ balance, number_sub balance amount) key
         (UserComponent.attributes user);
     UserComponent.PlacedItems := UserComponent.PlacedItems user |}.

(** [user.PlacedItems.set(key, component)]. *)
Definition place (user : UserComponent.t) (key : string)
    (component : ItemComponent.t) : UserComponent.t :=
  {| UserComponent.instance := UserComponent.instance user;
     UserComponent.attributes := UserComponent.attributes user;
     UserComponent.PlacedItems :=
       <[key := component]> (UserComponent.PlacedItems user) |}.

(** [register.price[PricingExchangeType.BUY]?.[currency] ?? 0]. *)
Definition buy_price (register : Register) (currency : string) : Z :=
  default 0%Z (price register BUY ≫= (.!! currency)).

(** The attributes of an item, read off a model; none unless the three are
    there with their types. *)
Definition item_attributes (m : Model) : option ItemComponent.Attributes :=
  match Attributes m !! "User", Attributes m !! "ItemInstanceUUID",
        Attributes m !! "ItemRegisterUUID" with
  | Some (AttrNumber user), Some (AttrString instance),
    Some (AttrString register) =>
      Some {| ItemComponent.User := user;
              ItemComponent.ItemInstanceUUID := instance;
              ItemComponent.ItemRegisterUUID := register |}
  | _, _, _ => None
  end.

(** Where a thread that may yield stands: it has resumed with a value, or
    it is still suspended. *)
Inductive Wait (A : Type) :=
| Resumed (a : A)
| Suspended.
Arguments Resumed {A} a.
Arguments Suspended {A}.

(** The collaborators of the service that are declared elsewhere:
    - [ItemRegistry], as the methods read it;
    - [CurrencyMembers], the value of [getSymmetricEnumMembers(Currency)],
      the members of the [Currency] enum;
    - [AdjustCFrame] of [ItemMovementService];
    - [GenerateGUID n], what [HttpService.GenerateGUID(false)] hands out
      after [n] other GUIDs;
    - [ITEM], the tag [CollectionTag.ITEM];
    - [componentAttached w r], whether Flamework has built an
      [ItemComponent] on the instance [r] in the world [w]. *)
Class Services := {
  ItemRegistry : gmap string Register;
  CurrencyMembers : list string;
  AdjustCFrame : CFrame.t → CFrame.t;
  GenerateGUID : nat → string;
  ITEM : string;
  componentAttached : World → nat → bool }.

Section ItemService.

Context `{Services}.

(** Modelled from the spec: the lookup of the World Object Binder,
    [Dependency<Components>().getComponent<ItemComponent>(model)].  It
    yields the component bound to the instance, if Flamework has built one;
    the component's attributes are the instance's. *)
Definition getComponent (w : World) (r : nat) : option ItemComponent.t :=
  m ← heap w !! r;
  if componentAttached w r then
    attrs ← item_attributes m;
    Some {| ItemComponent.instance := r; ItemComponent.attributes := attrs |}
  else None.

(** Lines 74 to 82 of [CreateItem]: the clone is posed, stamped, named,
    parented to the workspace and tagged. *)
Definition spawn (user : UserComponent.t) (register instance : string)
    (cframe : CFrame.t) (r : nat) (w : World) : World :=
  let w := PivotTo r cframe w in
  let w := SetAttribute r "User"
             (AttrNumber (UserId (UserComponent.instance user))) w in
  let w := SetAttribute r "ItemInstanceUUID" (AttrString instance) w in
  let w := SetAttribute r "ItemRegisterUUID" (AttrString register) w in
  let w := SetName r instance w in
  let w := SetParentWorkspace r w in
  AddTag r ITEM w.

(** The default of the [instance] parameter, evaluated on entry when no
    instance id is passed. *)
Definition default_instance (instance : option string) (w : World)
    : string * World :=
  match instance with
  | Some i => (i, w)
  | None =>
      (GenerateGUID (guids w),
       {| heap := heap w; Workspace := Workspace w; guids := S (guids w);
          calls := calls w |})
  end.

(** [cframe ??= new CFrame(new Vector3(0, model.PrimaryPart!.Size.Y / 2, 0))]. *)
Definition candidate_cframe (cframe : option CFrame.t) (m : Model)
    : Completion CFrame.t :=
  match cframe with
  | Some cf => Return cf
  | None =>
      match PrimaryPart m with
      | Some part =>
          Return (CFrame.new (Vector3.new 0 (Vector3.Y (Size part) / 2) 0))
      | None => Throw "attempt to index nil with 'Size'"
      end
  end.

Definition CreateItem (user : UserComponent.t) (register : string)
    (instance : option string) (cframe : option CFrame.t) (w : World)
    : Outcome :=
  let '(instance, w) := default_instance instance w in
  match ItemRegistry !! register with
  | None => Build_Outcome user w (Return (Err NOT_FOUND))
  | Some reg =>
      match model reg with
      | None => Build_Outcome user w (Throw "attempt to index nil with 'Clone'")
      | Some template =>
          let '(r, w) := Clone template w in
          (* the clone's primary part is the template's *)
          match candidate_cframe cframe template with
          | Throw message => Build_Outcome user w (Throw message)
          | Return cframe =>
              let rounded := AdjustCFrame cframe in
              let w := spawn user register instance cframe r w in
              let w := log (CallGetComponent r) w in
              match getComponent w r with
              | None =>
                  Build_Outcome user w (Throw "component was not initialized!")
              | Some component =>
                  let w := PivotTo (ItemComponent.instance component) rounded w in
                  let user :=
                    place user
                      (ItemComponent.ItemInstanceUUID
                         (ItemComponent.attributes component))
                      component in
                  Build_Outcome user w (Return (Ok component))
              end
          end
      end
  end.

Definition PurchaseItem (user : UserComponent.t) (registerUUID : string)
    (position : option CFrame.t) (w : World) : Outcome :=
  match ItemRegistry !! registerUUID with
  | None => Build_Outcome user w (Return (Err NOT_FOUND))
  | Some register =>
      match price register BUY with
      | None => Build_Outcome user w (Return (Err FORBIDDEN))
      | Some _ =>
          if existsb
               (λ currency,
                  (UserComponent.attributes user (Balance currency)
                   <? buy_price register currency)%Z)
               CurrencyMembers
          then Build_Outcome user w (Return (Err FORBIDDEN))
          else
            let user :=
              fold_left
                (λ user currency,
                   debit user (Balance currency) (buy_price register currency))
                CurrencyMembers user in
            CreateItem user registerUUID None position w
      end
  end.

(** [game.Workspace.WaitForChild(name)], with no timeout, followed for
    [fuel] suspensions.  While the thread is suspended the other threads
    run: [others n] is what they do to the world during the [n]-th
    suspension. *)
Fixpoint WaitForChild (fuel : nat) (others : nat → World → World)
    (n : nat) (w : World) (name : string) : World * Wait nat :=
  match FindFirstChild w name with
  | Some r => (w, Resumed r)
  | None =>
      match fuel with
      | O => (w, Suspended)
      | S fuel => WaitForChild fuel others (S n) (others n w) name
      end
  end.

(** [GetItem]: [Option.wrap] of the component is the [option] itself. *)
Definition GetItem (fuel : nat) (others : nat → World → World) (w : World)
    (uuid : string) : World * Wait (option ItemComponent.t) :=
  match WaitForChild fuel others 0 w uuid with
  | (w, Resumed r) => (w, Resumed (getComponent w r))
  | (w, Suspended) => (w, Suspended)
  end.

(** *** Notions the statements below use *)

(** The world when [CreateItem] calls [getComponent]: the clone has been
    spawned under the reference [length (heap w)]. *)
Definition at_binding (user : UserComponent.t) (register : string)
    (instance : option string) (cframe : CFrame.t) (template : Model)
    (w : World) : World :=
  let iw := default_instance instance w in
  log (CallGetComponent (length (heap w)))
    (spawn user register iw.1 cframe (length (heap w))
       (Clone template iw.2).2).

(** A public operation of the service on a user, and the user and world it
    leaves behind. *)
Inductive Operation :=
| DoPurchaseItem (registerUUID : string) (position : option CFrame.t)
| DoCreateItem (register : string) (instance : option string)
    (cframe : option CFrame.t)
| DoGetItem (fuel : nat) (others : nat → World → World) (uuid : string).

Definition perform (op : Operation) (user : UserComponent.t) (w : World)
    : UserComponent.t * World :=
  match op with
  | DoPurchaseItem registerUUID position =>
      let out := PurchaseItem user registerUUID position w in
      (user_after out, world_after out)
  | DoCreateItem register instance cframe =>
      let out := CreateItem user register instance cframe w in
      (user_after out, world_after out)
  | DoGetItem fuel others uuid => (user, (GetItem fuel others w uuid).1)
  end.

End ItemService.

(** The component Flamework binds to the clone [CreateItem] spawned. *)
Definition bound (user : UserComponent.t) (register instance : string)
    (r : nat) : ItemComponent.t :=
  {| ItemComponent.instance := r;
     ItemComponent.attributes :=
       {| ItemComponent.User := UserId (UserComponent.instance user);
          ItemComponent.ItemInstanceUUID := instance;
          ItemComponent.ItemRegisterUUID := register |} |}.

(** The world after the other threads have run through [n] suspensions,
    the first of them numbered [start]. *)
Fixpoint elapse (others : nat → World → World) (start n : nat) (w : World)
    : World :=
  match n with
  | O => w
  | S n => elapse others (S start) n (others start w)
  end.

(** The ground of the world is the plane [y = 0]. *)
Definition ground : Q := 0.

(** The height of the lowest face of [part] when the part is centred on
    [pose], as the primary part of a model is once the model is pivoted to
    [pose]: half the part's height below the pose. *)
Definition bottom (pose : CFrame.t) (part : BasePart) : Q :=
  Vector3.Y (CFrame.Position pose) - Vector3.Y (Size part) / 2.

(** *** Notions the statements on the constructor use *)

(** A register the constructor accepts: it has a model, and the model a
    primary part. *)
Definition has_primary_part (register : Register) : Prop :=
  ∃ m part, model register = Some m ∧ PrimaryPart m = Some part.

(** A register as the constructor leaves it: the template anchored and
    pivoted to the origin, the price table as it was. *)
Definition prepare_register (register : Register) : Register :=
  {| model := prepare <$> model register; price := price register |}.

(** ** A concrete world *)

Module Scenario.

Definition crate_part : BasePart :=
  {| Size := Vector3.new 4 3 4; Anchored := false |}.

Definition crate : Model :=
  {| Name := "Crate"; Pivot := CFrame.new (Vector3.new 3 7 1);
     Attributes := ∅; Tags := ∅;
     PrimaryPart := Some crate_part; Parts := [] |}.

Definition costs (gold : Z) (exchange : PricingExchangeType)
    : option (gmap string Z) :=
  match exchange with
  | BUY => Some {[ "GOLD" := gold ]}
  | SELL => None
  end.

(** [T1] costs 50 gold, [T2] costs 200 gold, [T3] cannot be bought. *)
Definition catalogue : gmap string Register :=
  {[ "T1" := {| model := Some crate; price := costs 50 |};
     "T2" := {| model := Some crate; price := costs 200 |};
     "T3" := {| model := Some crate; price := λ _, None |} ]}.

Definition currencies : list string := ["GOLD"; "GEMS"].

(** Snaps a position to the unit grid and keeps the rotation. *)
Definition snap (cf : CFrame.t) : CFrame.t :=
  let p := CFrame.Position cf in
  CFrame.mk
    (Vector3.new (inject_Z (Qfloor (Vector3.X p)))
                 (inject_Z (Qfloor (Vector3.Y p)))
                 (inject_Z (Qfloor (Vector3.Z p))))
    (CFrame.XVector cf) (CFrame.YVector cf) (CFrame.ZVector cf).

Definition guid (n : nat) : string := "guid-" +:+ pretty n.

Definition tag : string := "Item".

(** A binder that builds a component on every tagged instance. *)
Definition tagged (w : World) (r : nat) : bool :=
  match heap w !! r with
  | Some m => bool_decide (tag ∈ Tags m)
  | None => false
  end.

(** A binder that never builds one. *)
Definition broken (w : World) (r : nat) : bool := false.

Definition alice : UserComponent.t :=
  {| UserComponent.instance := {| UserId := 7 |};
     UserComponent.attributes :=
       λ key, if decide (key = "Balance_GOLD") then 100%Z else 0%Z;
     UserComponent.PlacedItems := ∅ |}.

Definition empty : World :=
  {| heap := []; Workspace := []; guids := 0; calls := [] |}.

(** The catalogue as the constructor leaves it. *)
Definition loaded : gmap string Register :=
  match constructor catalogue with
  | Return registry => registry
  | Throw _ => ∅
  end.

(** The service with the binder that works, and with the one that does
    not. *)
Definition services : Services :=
  {| ItemRegistry := loaded; CurrencyMembers := currencies;
     AdjustCFrame := snap; GenerateGUID := guid; ITEM := tag;
     componentAttached := tagged |}.

Definition faulty : Services :=
  {| ItemRegistry := loaded; CurrencyMembers := currencies;
     AdjustCFrame := snap; GenerateGUID := guid; ITEM := tag;
     componentAttached := broken |}.

(** Alice and the world once she has placed a crate under the instance
    id [crate-1]. *)
Definition once : Outcome :=
  @CreateItem services alice "T1" (Some "crate-1") None empty.

(** No other thread touches the world. *)
Definition idle (n : nat) (w : World) : World := w.

(** Another thread places Alice's crate during the second suspension. *)
Definition late (n : nat) (w : World) : World :=
  if decide (n = 1) then world_after once else w.

(** A catalogue with a register that has no model. *)
Definition incomplete : gmap string Register :=
  {[ "T9" := {| model := None; price := costs 10 |} ]}.

(** Bob holds 70 gold: enough for one crate at 50, not for two. *)
Definition bob : UserComponent.t :=
  {| UserComponent.instance := {| UserId := 8 |};
     UserComponent.attributes :=
       λ key, if decide (key = "Balance_GOLD") then 70%Z else 0%Z;
     UserComponent.PlacedItems := ∅ |}.





End Scenario.

(** * Properties *)

(** ** Balances under the debit loop *)

Lemma Balance_inj (c1 c2 : string) : Balance c1 = Balance c2 → c1 = c2.
Proof. unfold Balance. apply (inj (String.append "Balance_")). Qed.

#[local] Arguments Balance : simpl never.

(** ** Numbers *)

Lemma exponent_nonneg z : (0 ≤ exponent z)%Z.
Proof. unfold exponent. lia. Qed.

Lemma ulp_pos z : (0 < 2 ^ exponent z)%Z.
Proof. apply Z.pow_pos_nonneg; [lia|apply exponent_nonneg]. Qed.

Lemma exponent_mono a b : (0 ≤ a ≤ b)%Z → (exponent a ≤ exponent b)%Z.
Proof.
  intros Hab. unfold exponent. rewrite !Z.abs_eq by lia.
  pose proof (Z.log2_le_mono a b ltac:(lia)). lia.
Qed.

Lemma exponent_small z : (Z.abs z < 2 ^ 53)%Z → exponent z = 0%Z.
Proof.
  intros Hz. unfold exponent.
  destruct (decide (Z.abs z = 0%Z)) as [->|Hne]; [done|].
  assert (Z.log2 (Z.abs z) < 53)%Z by (apply Z.log2_lt_pow2; lia). lia.
Qed.

Lemma is_number_divide z : is_number z = true ↔ (2 ^ exponent z | z)%Z.
Proof.
  unfold is_number. rewrite Z.eqb_eq. apply Z.mod_divide.
  pose proof (ulp_pos z). lia.
Qed.

Lemma round64_number z : is_number z = true → round64 z = z.
Proof.
  intros Hz. apply is_number_divide in Hz. unfold round64.
  pose proof (ulp_pos z) as Hulp.
  apply Z.divide_abs_r in Hz.
  apply Z.mod_divide in Hz as Hmod; [|lia]. rewrite Hmod.
  replace (2 * 0 <? 2 ^ exponent z)%Z with true by (symmetry; apply Z.ltb_lt; lia).
  rewrite Z.mul_comm with (n := (Z.abs z / 2 ^ exponent z)%Z).
  rewrite <- (proj2 (Z.div_exact (Z.abs z) (2 ^ exponent z) ltac:(lia)) Hmod).
  rewrite Z.mul_comm. apply Z.abs_sgn.
Qed.

Lemma is_number_small z : (Z.abs z ≤ 2 ^ 53)%Z → is_number z = true.
Proof.
  intros Hz. destruct (decide (Z.abs z = 2 ^ 53)%Z) as [Heq|Hne].
  - apply is_number_divide.
    assert (exponent z = 1%Z) as -> by (unfold exponent; by rewrite Heq).
    apply Z.divide_abs_r. rewrite Heq. by exists (2 ^ 52)%Z.
  - apply is_number_divide. rewrite exponent_small by lia. apply Z.divide_1_l.
Qed.

Lemma round64_nonneg z : (0 ≤ z)%Z → (0 ≤ round64 z)%Z.
Proof.
  intros Hz. unfold round64. pose proof (ulp_pos z) as Hulp.
  assert (0 ≤ Z.abs z / 2 ^ exponent z)%Z
    by (apply Z.div_pos; lia).
  apply Z.mul_nonneg_nonneg; [lia|].
  apply Z.mul_nonneg_nonneg; [|lia].
  repeat case_match; lia.
Qed.

(** The difference of two doubles, one at most twice the other, is a
    double: the subtraction is exact. *)
Lemma is_number_sub a b :
  is_number a = true → is_number b = true →
  (0 ≤ b ≤ a)%Z → (a ≤ 2 * b)%Z →
  is_number (a - b) = true.
Proof.
  rewrite !is_number_divide. intros Ha Hb Hba Hab.
  assert (exponent (a - b) ≤ exponent b)%Z by (apply exponent_mono; lia).
  assert (exponent b ≤ exponent a)%Z by (apply exponent_mono; lia).
  pose proof (exponent_nonneg (a - b)). pose proof (exponent_nonneg b).
  assert (Hdiv : ∀ x y, (0 ≤ x ≤ y)%Z → (2 ^ x | 2 ^ y)%Z).
  { intros x y Hxy. exists (2 ^ (y - x))%Z.
    rewrite <- Z.pow_add_r by lia. f_equal. lia. }
  apply Z.divide_trans with (2 ^ exponent b)%Z; [by apply Hdiv|].
  apply Z.divide_sub_r; [|done].
  apply Z.divide_trans with (2 ^ exponent a)%Z; [by apply Hdiv|done].
Qed.

Lemma number_sub_nonneg a b : (b ≤ a)%Z → (0 ≤ number_sub a b)%Z.
Proof.
  intros Hba. unfold number_sub. case_match; [|lia].
  apply round64_nonneg. lia.
Qed.

Lemma number_sub_close a b :
  (0 ≤ b ≤ a)%Z → (a ≤ 2 * b)%Z → number_sub a b = (a - b)%Z.
Proof.
  intros Hba Hab. unfold number_sub.
  destruct (is_number a) eqn:Ha, (is_number b) eqn:Hb; cbn; try done.
  apply round64_number. by apply is_number_sub.
Qed.

Lemma number_sub_small a b :
  (0 ≤ b ≤ a)%Z → (a ≤ 2 ^ 53)%Z → number_sub a b = (a - b)%Z.
Proof.
  intros Hba Ha. unfold number_sub. case_match; [|done].
  apply round64_number, is_number_small. lia.
Qed.

(** ** The debit loop *)

Section Debit.

Variable amount : string → Z.

Local Abbreviation debit_all members user :=
  (fold_left
     (λ user currency, debit user (Balance currency) (amount currency))
     members user).

Lemma debit_all_frame (members : list string) (user : UserComponent.t) :
  UserComponent.instance (debit_all members user)
    = UserComponent.instance user
  ∧ UserComponent.PlacedItems (debit_all members user)
    = UserComponent.PlacedItems user.
Proof.
  revert user. induction members as [|c members IH]; intros user; [done|].
  cbn. destruct (IH (debit user (Balance c) (amount c))) as [-> ->]. done.
Qed.

Lemma debit_all_other (members : list string) (user : UserComponent.t)
    (key : string) :
  (∀ c, c ∈ members → key ≠ Balance c) →
  UserComponent.attributes (debit_all members user) key
    = UserComponent.attributes user key.
Proof.
  revert user. induction members as [|c members IH]; intros user Hkey; [done|].
  cbn. rewrite IH by (intros c' Hc'; apply Hkey; by right).
  cbn. apply fn_lookup_alter_ne. intros Heq.
  apply (Hkey c); [by left | done].
Qed.

Lemma debit_all_member (members : list string) (user : UserComponent.t)
    (c : string) :
  NoDup members → c ∈ members →
  UserComponent.attributes (debit_all members user) (Balance c)
    = number_sub (UserComponent.attributes user (Balance c)) (amount c).
Proof.
  revert user. induction members as [|c' members IH]; intros user Hnd Hc.
  - by apply elem_of_nil in Hc.
  - apply NoDup_cons in Hnd as [Hnotin Hnd].
    apply elem_of_cons in Hc as [->|Hc]; cbn.
    + rewrite debit_all_other.
      * cbn. by rewrite fn_lookup_alter.
      * intros c Hin Heq. apply Balance_inj in Heq as ->. done.
    + rewrite IH by done. cbn.
      rewrite fn_lookup_alter_ne; [done|].
      intros Heq. apply Balance_inj in Heq as ->. done.
Qed.

End Debit.

(** ** The world under the calls of [CreateItem] *)

Lemma heap_log (c : Call) (w : World) : heap (log c w) = heap w.
Proof. done. Qed.

Lemma Workspace_log (c : Call) (w : World) : Workspace (log c w) = Workspace w.
Proof. done. Qed.

Lemma calls_log (c : Call) (w : World) : calls (log c w) = (calls w ++ [c])%list.
Proof. done. Qed.

Lemma calls_PivotTo (r : nat) (cframe : CFrame.t) (w : World) :
  calls (PivotTo r cframe w) = (calls w ++ [CallPivotTo r cframe])%list.
Proof. done. Qed.

Lemma Workspace_PivotTo (r : nat) (cframe : CFrame.t) (w : World) :
  Workspace (PivotTo r cframe w) = Workspace w.
Proof. done. Qed.

Lemma PivotTo_lookup (r : nat) (cframe : CFrame.t) (w : World) (m : Model) :
  heap w !! r = Some m →
  heap (PivotTo r cframe w) !! r =
    Some {| Name := Name m; Pivot := cframe; Attributes := Attributes m;
            Tags := Tags m; PrimaryPart := PrimaryPart m; Parts := Parts m |}.
Proof. intros Hm. cbn. by rewrite list_lookup_alter_eq, Hm. Qed.

Lemma PivotTo_lookup_ne (r r' : nat) (cframe : CFrame.t) (w : World) :
  r' ≠ r → heap (PivotTo r cframe w) !! r' = heap w !! r'.
Proof. intros Hne. cbn. by rewrite list_lookup_alter_ne. Qed.

Lemma Clone_fst (m : Model) (w : World) : (Clone m w).1 = length (heap w).
Proof. done. Qed.

Lemma Clone_Workspace (m : Model) (w : World) :
  Workspace (Clone m w).2 = Workspace w.
Proof. done. Qed.

Lemma Clone_calls (m : Model) (w : World) :
  calls (Clone m w).2 = (calls w ++ [CallClone (length (heap w))])%list.
Proof. done. Qed.

Lemma Clone_lookup (m : Model) (w : World) :
  heap (Clone m w).2 !! (Clone m w).1 = Some m.
Proof. cbn. by rewrite lookup_app_r, Nat.sub_diag. Qed.

Lemma Clone_lookup_old (m : Model) (w : World) (r : nat) :
  r < length (heap w) → heap (Clone m w).2 !! r = heap w !! r.
Proof. intros Hr. cbn. by rewrite lookup_app_l. Qed.

Section Spawn.

Context `{Services}.
Variables (user : UserComponent.t).
Variables (register instance : string) (cframe : CFrame.t) (r : nat).

Local Abbreviation spawned w := (spawn user register instance cframe r w).

Lemma spawn_lookup (w : World) (m : Model) :
  heap w !! r = Some m →
  heap (spawned w) !! r =
    Some {| Name := instance; Pivot := cframe;
            Attributes :=
              <["ItemRegisterUUID" := AttrString register]>
                (<["ItemInstanceUUID" := AttrString instance]>
                   (<["User" := AttrNumber (UserId (UserComponent.instance user))]>
                      (Attributes m)));
            Tags := {[ITEM]} ∪ Tags m;
            PrimaryPart := PrimaryPart m; Parts := Parts m |}.
Proof.
  intros Hm. cbn. rewrite !list_lookup_alter_eq, Hm. done.
Qed.

Lemma spawn_lookup_ne (w : World) (r' : nat) :
  r' ≠ r → heap (spawned w) !! r' = heap w !! r'.
Proof.
  intros Hne. cbn. by rewrite !list_lookup_alter_ne.
Qed.

Lemma spawn_Workspace (w : World) : Workspace (spawned w) = (Workspace w ++ [r])%list.
Proof. done. Qed.

Lemma spawn_calls (w : World) :
  calls (spawned w) =
    (calls w ++
      [CallPivotTo r cframe;
       CallSetAttribute r "User"
         (AttrNumber (UserId (UserComponent.instance user)));
       CallSetAttribute r "ItemInstanceUUID" (AttrString instance);
       CallSetAttribute r "ItemRegisterUUID" (AttrString register);
       CallSetName r instance;
       CallSetParentWorkspace r;
       CallAddTag r ITEM])%list.
Proof. cbn. by rewrite <- !app_assoc. Qed.

End Spawn.

Lemma item_attributes_stamped (m : Model) (user : Z) (instance register : string)
    (name : string) (pivot : CFrame.t) (tags : gset string) :
  item_attributes
    {| Name := name; Pivot := pivot;
       Attributes :=
         <["ItemRegisterUUID" := AttrString register]>
           (<["ItemInstanceUUID" := AttrString instance]>
              (<["User" := AttrNumber user]> (Attributes m)));
       Tags := tags; PrimaryPart := PrimaryPart m; Parts := Parts m |}
  = Some {| ItemComponent.User := user;
            ItemComponent.ItemInstanceUUID := instance;
            ItemComponent.ItemRegisterUUID := register |}.
Proof.
  unfold item_attributes. cbn.
  rewrite lookup_insert_ne, lookup_insert_ne, lookup_insert_eq by done.
  rewrite lookup_insert_ne, lookup_insert_eq by done.
  by rewrite lookup_insert_eq.
Qed.

Lemma default_instance_heap `{Services} (instance : option string) (w : World) :
  heap (default_instance instance w).2 = heap w
  ∧ Workspace (default_instance instance w).2 = Workspace w
  ∧ calls (default_instance instance w).2 = calls w.
Proof. by destruct instance. Qed.

(** ** The world when the component is looked up *)

Section AtBinding.

Context `{Services}.
Variables (user : UserComponent.t) (register : string).
Variables (instance : option string) (cframe : CFrame.t) (template : Model).

Local Abbreviation binding w :=
  (at_binding user register instance cframe template w).
Local Abbreviation id w := (default_instance instance w).1.

Lemma at_binding_lookup (w : World) :
  heap (binding w) !! length (heap w) =
    Some {| Name := id w; Pivot := cframe;
            Attributes :=
              <["ItemRegisterUUID" := AttrString register]>
                (<["ItemInstanceUUID" := AttrString (id w)]>
                   (<["User" := AttrNumber (UserId (UserComponent.instance user))]>
                      (Attributes template)));
            Tags := {[ITEM]} ∪ Tags template;
            PrimaryPart := PrimaryPart template; Parts := Parts template |}.
Proof.
  unfold at_binding.
  destruct (default_instance_heap instance w) as (Hheap & _ & _).
  rewrite heap_log. apply spawn_lookup.
  rewrite <- Hheap. apply Clone_lookup.
Qed.

Lemma at_binding_lookup_old (w : World) (r : nat) :
  r < length (heap w) → heap (binding w) !! r = heap w !! r.
Proof.
  intros Hr. unfold at_binding.
  destruct (default_instance_heap instance w) as (Hheap & _ & _).
  rewrite heap_log, spawn_lookup_ne by lia.
  rewrite Clone_lookup_old by (rewrite Hheap; lia). by rewrite Hheap.
Qed.

Lemma at_binding_Workspace (w : World) :
  Workspace (binding w) = (Workspace w ++ [length (heap w)])%list.
Proof.
  unfold at_binding.
  destruct (default_instance_heap instance w) as (_ & HW & _).
  rewrite Workspace_log, spawn_Workspace, Clone_Workspace. by rewrite HW.
Qed.

Lemma at_binding_calls (w : World) :
  calls (binding w) =
    (calls w ++
      [CallClone (length (heap w));
       CallPivotTo (length (heap w)) cframe;
       CallSetAttribute (length (heap w)) "User"
         (AttrNumber (UserId (UserComponent.instance user)));
       CallSetAttribute (length (heap w)) "ItemInstanceUUID"
         (AttrString (id w));
       CallSetAttribute (length (heap w)) "ItemRegisterUUID"
         (AttrString register);
       CallSetName (length (heap w)) (id w);
       CallSetParentWorkspace (length (heap w));
       CallAddTag (length (heap w)) ITEM;
       CallGetComponent (length (heap w))])%list.
Proof.
  unfold at_binding.
  destruct (default_instance_heap instance w)
    as (Hheap & _ & Hcalls).
  rewrite calls_log, spawn_calls, Clone_calls, Hcalls, Hheap.
  by rewrite <- !app_assoc.
Qed.

End AtBinding.

(** ** The paths of [CreateItem] *)

Section CreateItemPaths.

Context `{Services}.

(** On the spawned clone, [getComponent] finds the bound component or
    nothing, as Flamework decides. *)
Lemma getComponent_at_binding user register instance cf template w :
  let r := length (heap w) in
  let i := (default_instance instance w).1 in
  let w' := at_binding user register instance cf template w in
  match getComponent w' r with
  | Some component =>
      Build_Outcome
        (place user
           (ItemComponent.ItemInstanceUUID (ItemComponent.attributes component))
           component)
        (PivotTo (ItemComponent.instance component) (AdjustCFrame cf) w')
        (Return (Ok component))
  | None => Build_Outcome user w' (Throw "component was not initialized!")
  end
  = if componentAttached w' r then
      Build_Outcome (place user i (bound user register i r))
        (PivotTo r (AdjustCFrame cf) w')
        (Return (Ok (bound user register i r)))
    else Build_Outcome user w' (Throw "component was not initialized!").
Proof.
  intros r i w'. unfold getComponent. subst w' r.
  rewrite at_binding_lookup. cbn [mbind option_bind].
  destruct (componentAttached _ _); [|done].
  by rewrite item_attributes_stamped.
Qed.

Lemma getComponent_at_binding_eq user register instance cf template w :
  let r := length (heap w) in
  let i := (default_instance instance w).1 in
  let w' := at_binding user register instance cf template w in
  getComponent w' r
  = if componentAttached w' r then Some (bound user register i r) else None.
Proof.
  intros r i w'. unfold getComponent. subst w' r.
  rewrite at_binding_lookup. cbn [mbind option_bind].
  destruct (componentAttached _ _); [|done].
  by rewrite item_attributes_stamped.
Qed.

Lemma CreateItem_not_found user register instance cframe w :
  ItemRegistry !! register = None →
  CreateItem user register instance cframe w =
    Build_Outcome user (default_instance instance w).2
      (Return (Err NOT_FOUND)).
Proof.
  intros Hreg. unfold CreateItem.
  destruct (default_instance instance w) as [i w1].
  by rewrite Hreg.
Qed.

Lemma CreateItem_spawned user register instance cframe w reg template cf :
  ItemRegistry !! register = Some reg →
  model reg = Some template →
  candidate_cframe cframe template = Return cf →
  let r := length (heap w) in
  let i := (default_instance instance w).1 in
  let w' := at_binding user register instance cf template w in
  CreateItem user register instance cframe w =
    if componentAttached w' r then
      Build_Outcome (place user i (bound user register i r))
        (PivotTo r (AdjustCFrame cf) w')
        (Return (Ok (bound user register i r)))
    else Build_Outcome user w' (Throw "component was not initialized!").
Proof.
  intros Hreg Hmodel Hcf r i w'. subst r i w'.
  rewrite <- getComponent_at_binding.
  unfold CreateItem, at_binding.
  destruct (default_instance_heap instance w) as (Hheap & _ & _).
  destruct (default_instance instance w) as [i w1].
  cbn [fst snd] in *. rewrite Hreg, Hmodel.
  rewrite (surjective_pairing (Clone template w1)), Clone_fst, Hheap, Hcf.
  by destruct (getComponent _ _).
Qed.

(** A call that returns [Ok] went down the spawning path and found the
    component. *)
Lemma CreateItem_Ok_inv user register instance cframe w component :
  completion (CreateItem user register instance cframe w)
    = Return (Ok component) →
  ∃ reg template cf,
    ItemRegistry !! register = Some reg
    ∧ model reg = Some template
    ∧ candidate_cframe cframe template = Return cf
    ∧ componentAttached
        (at_binding user register instance cf template w)
        (length (heap w)) = true
    ∧ component =
        bound user register (default_instance instance w).1
          (length (heap w)).
Proof.
  intros Hok.
  destruct (ItemRegistry !! register) as [reg|] eqn:Hreg;
    [|by rewrite CreateItem_not_found in Hok].
  destruct (model reg) as [template|] eqn:Hmodel.
  - destruct (candidate_cframe cframe template) as [cf|msg] eqn:Hcf.
    + rewrite (CreateItem_spawned _ _ _ _ _ _ _ _ Hreg Hmodel Hcf) in Hok.
      exists reg, template, cf.
      destruct (componentAttached _ _); [|done].
      cbn in Hok. by simplify_eq.
    + unfold CreateItem in Hok.
      destruct (default_instance instance w) as [i w1].
      by rewrite Hreg, Hmodel, Hcf in Hok.
  - unfold CreateItem in Hok.
    destruct (default_instance instance w) as [i w1].
    by rewrite Hreg, Hmodel in Hok.
Qed.

(** A call that returns a typed error stopped at the registry lookup. *)
Lemma CreateItem_Err_inv user register instance cframe w error :
  completion (CreateItem user register instance cframe w)
    = Return (Err error) →
  ItemRegistry !! register = None.
Proof.
  intros Herr.
  destruct (ItemRegistry !! register) as [reg|] eqn:Hreg; [|done].
  destruct (model reg) as [template|] eqn:Hmodel.
  - destruct (candidate_cframe cframe template) as [cf|msg] eqn:Hcf.
    + rewrite (CreateItem_spawned _ _ _ _ _ _ _ _ Hreg Hmodel Hcf) in Herr.
      by destruct (componentAttached _ _).
    + unfold CreateItem in Herr.
      destruct (default_instance instance w) as [i w1].
      by rewrite Hreg, Hmodel, Hcf in Herr.
  - unfold CreateItem in Herr.
    destruct (default_instance instance w) as [i w1].
    by rewrite Hreg, Hmodel in Herr.
Qed.

(** [CreateItem] never touches the attributes of the user. *)
Lemma CreateItem_user_attributes user register instance cframe w :
  UserComponent.attributes
    (user_after (CreateItem user register instance cframe w))
  = UserComponent.attributes user.
Proof.
  unfold CreateItem.
  destruct (default_instance instance w) as [i w1].
  destruct (ItemRegistry !! register) as [reg|]; [|done].
  destruct (model reg) as [template|]; [|done].
  destruct (Clone template w1) as [r w2].
  destruct (candidate_cframe cframe template) as [cf|msg]; [|done].
  by destruct (getComponent _ _).
Qed.

End CreateItemPaths.

(** ** What the constructor guarantees *)

Lemma constructor_loop_primary_part entries registry loaded :
  constructor_loop entries registry = Return loaded →
  (∀ key reg, registry !! key = Some reg →
     (∃ reg', (key, reg') ∈ entries)
     ∨ ∃ m part, model reg = Some m ∧ PrimaryPart m = Some part) →
  ∀ key reg, loaded !! key = Some reg →
    ∃ m part, model reg = Some m ∧ PrimaryPart m = Some part.
Proof.
  revert registry. induction entries as [|[k r] entries IH]; intros registry.
  - intros [= <-] Hinv key reg Hkey.
    destruct (Hinv key reg Hkey) as [[reg' Hin]|Hgood]; [|done].
    by apply elem_of_nil in Hin.
  - cbn. destruct (model r) as [m|] eqn:Hm; [|done].
    destruct (PrimaryPart m) as [part|] eqn:Hpart; [|done].
    intros Hloop Hinv. apply (IH _ Hloop). intros key reg Hkey.
    destruct (decide (k = key)) as [->|Hne].
    + rewrite lookup_insert_eq in Hkey. injection Hkey as <-.
      right. exists (prepare m), (anchor part). cbn. by rewrite Hpart.
    + rewrite lookup_insert_ne in Hkey by done.
      destruct (Hinv key reg Hkey) as [[reg' Hin]|Hgood]; [|by right].
      apply elem_of_cons in Hin as [[= -> ->]|Hin]; [done|].
      left. by exists reg'.
Qed.

(** Once the constructor has returned, every register has a model with a
    primary part. *)
Lemma constructor_primary_part registry loaded key reg :
  constructor registry = Return loaded →
  loaded !! key = Some reg →
  ∃ m part, model reg = Some m ∧ PrimaryPart m = Some part.
Proof.
  intros Hc. apply (constructor_loop_primary_part _ _ _ Hc).
  intros k r Hk. left. exists r. by apply elem_of_map_to_list.
Qed.

(** ** [PurchaseItem], [CreateItem] and [GetItem] *)

Section Service.

Context `{Services}.

Local Abbreviation balance user currency :=
  (UserComponent.attributes user (Balance currency)).

(** The funds check of [PurchaseItem] rejects as soon as one currency
    falls short. *)
Lemma PurchaseItem_short user registerUUID position w register currency :
  ItemRegistry !! registerUUID = Some register →
  currency ∈ CurrencyMembers →
  (balance user currency < buy_price register currency)%Z →
  PurchaseItem user registerUUID position w
    = Build_Outcome user w (Return (Err FORBIDDEN)).
Proof.
  intros Hreg Hin Hlt. unfold PurchaseItem. rewrite Hreg.
  destruct (price register BUY); [|done].
  rewrite (proj2 (existsb_exists _ _)); [done|].
  exists currency. split; [by apply list_elem_of_In|by apply Z.ltb_lt].
Qed.

(** C1. For every user and every template of the registry, if for some
    currency the BUY amount required (0 when the price table does not list
    the currency) exceeds the user's balance, [PurchaseItem] returns
    [Forbidden], and the user (every balance included) and the world are
    as they were. *)
Theorem PurchaseItem_insufficient_funds
    user registerUUID position w register currency :
  ItemRegistry !! registerUUID = Some register →
  currency ∈ CurrencyMembers →
  (balance user currency < buy_price register currency)%Z →
  let out := PurchaseItem user registerUUID position w in
  completion out = Return (Err FORBIDDEN)
  ∧ user_after out = user
  ∧ world_after out = w.
Proof.
  intros Hreg Hin Hlt out. subst out.
  by rewrite (PurchaseItem_short _ _ _ _ _ _ Hreg Hin Hlt).
Qed.

(** C3. For every template of the registry with no BUY entry in its price
    table, and every user, [PurchaseItem] returns [Forbidden] and leaves
    the user (every balance included) and the world as they were. *)
Theorem PurchaseItem_not_for_sale user registerUUID position w register :
  ItemRegistry !! registerUUID = Some register →
  price register BUY = None →
  let out := PurchaseItem user registerUUID position w in
  completion out = Return (Err FORBIDDEN)
  ∧ user_after out = user
  ∧ world_after out = w.
Proof.
  intros Hreg Hbuy out. subst out. unfold PurchaseItem.
  by rewrite Hreg, Hbuy.
Qed.

(** C4. For every template id that is not in the registry, [PurchaseItem]
    and [CreateItem] both return [NotFound]; the user (balances and
    placed items) is as it was, and no instance was created, parented or
    called. *)
Theorem unknown_template_not_found
    user registerUUID position instance w :
  ItemRegistry !! registerUUID = None →
  let bought := PurchaseItem user registerUUID position w in
  let created := CreateItem user registerUUID instance position w in
  (completion bought = Return (Err NOT_FOUND)
   ∧ user_after bought = user
   ∧ world_after bought = w)
  ∧ (completion created = Return (Err NOT_FOUND)
     ∧ user_after created = user
     ∧ heap (world_after created) = heap w
     ∧ Workspace (world_after created) = Workspace w
     ∧ calls (world_after created) = calls w).
Proof.
  intros Hreg bought created. subst bought created. split.
  - unfold PurchaseItem. by rewrite Hreg.
  - rewrite CreateItem_not_found by done. cbn.
    by destruct (default_instance_heap instance w)
      as (-> & -> & ->).
Qed.

(** The user after the debit loop of [PurchaseItem]. *)
Local Abbreviation debited user register :=
  (fold_left
     (λ user currency,
        debit user (Balance currency) (buy_price register currency))
     CurrencyMembers user).

(** Past its three checks, [PurchaseItem] is [CreateItem] on the debited
    user, with no instance id. *)
Lemma PurchaseItem_cases user registerUUID position w :
  (∃ error,
     PurchaseItem user registerUUID position w
       = Build_Outcome user w (Return (Err error)))
  ∨ (∃ register,
       ItemRegistry !! registerUUID = Some register
       ∧ (∀ c, c ∈ CurrencyMembers →
            (buy_price register c ≤ balance user c)%Z)
       ∧ PurchaseItem user registerUUID position w
           = CreateItem (debited user register) registerUUID None position w).
Proof.
  unfold PurchaseItem.
  destruct (ItemRegistry !! registerUUID) as [register|]; [|by left; eexists].
  destruct (price register BUY); [|by left; eexists].
  destruct (existsb _ _) eqn:Hcheck; [by left; eexists|].
  right. exists register. split_and!; [done| |done].
  intros c Hc. apply Z.nlt_ge. intros Hlt.
  apply not_true_iff_false in Hcheck. apply Hcheck, existsb_exists.
  exists c. split; [by apply list_elem_of_In|by apply Z.ltb_lt].
Qed.

(** With a BUY table, the price of a currency is the table's entry, or 0
    when the table does not list the currency. *)
Lemma buy_price_table register table c :
  price register BUY = Some table →
  buy_price register c = default 0%Z (table !! c).
Proof. intros Htable. unfold buy_price. by rewrite Htable. Qed.



(** C5. For every call of [CreateItem] with no pose, on a registry the
    constructor has accepted: the first pose given to the clone, before
    any rounding, has both horizontal coordinates at zero, and its height
    is half the height of the primary part, which puts the lowest face of
    the primary part exactly on the ground. *)
Theorem CreateItem_default_pose registry user register instance w reg :
  constructor registry = Return ItemRegistry →
  ItemRegistry !! register = Some reg →
  ∃ template part rest,
    model reg = Some template
    ∧ PrimaryPart template = Some part
    ∧ let pose :=
        CFrame.new (Vector3.new 0 (Vector3.Y (Size part) / 2) 0) in
      candidate_cframe None template = Return pose
      ∧ calls (world_after (CreateItem user register instance None w))
        = (calls w ++
            CallClone (length (heap w))
            :: CallPivotTo (length (heap w)) pose :: rest)%list
      ∧ Vector3.X (CFrame.Position pose) = 0%Q
      ∧ Vector3.Z (CFrame.Position pose) = 0%Q
      ∧ (bottom pose part == ground)%Q.
Proof.
  intros Hloaded Hreg.
  destruct (constructor_primary_part _ _ _ _ Hloaded Hreg)
    as (template & part & Hmodel & Hpart).
  assert (Hcf : candidate_cframe None template
                = Return (CFrame.new
                            (Vector3.new 0 (Vector3.Y (Size part) / 2) 0)))
    by (cbn; by rewrite Hpart).
  pose proof (CreateItem_spawned user register instance None w _ _ _
    Hreg Hmodel Hcf) as Hspawned.
  cbv zeta in Hspawned.
  assert (Hbottom :
    (bottom (CFrame.new (Vector3.new 0 (Vector3.Y (Size part) / 2) 0)) part
     == ground)%Q).
  { unfold bottom, ground. cbn. unfold Qminus. apply Qplus_opp_r. }
  destruct (componentAttached _ _); exists template, part; eexists;
    (split; [exact Hmodel|]); (split; [exact Hpart|]); cbv zeta;
    (split; [exact Hcf|]);
    (split; [|split; [reflexivity|split; [reflexivity|exact Hbottom]]]);
    rewrite Hspawned; cbn [world_after].
  - rewrite calls_PivotTo, at_binding_calls, <- app_assoc. reflexivity.
  - rewrite at_binding_calls. reflexivity.
Qed.

(** C6. For every call of [CreateItem] that returns [Ok]: the candidate
    pose is the pose passed, or the default one when none is passed.  The
    calls made on the clone are, in this order, the candidate pose as it
    stands before rounding, then the stamping, naming, parenting to the
    workspace, tagging and component lookup that bind it, then the rounded
    pose [AdjustCFrame candidate].  When the component is looked up the
    clone stands at the candidate pose, stamped, named, tagged and the last
    child of the workspace, and the lookup yields the component returned;
    at the end the clone is that same object moved to the rounded pose. *)
Theorem CreateItem_pose_order user register instance cframe w component :
  completion (CreateItem user register instance cframe w)
    = Return (Ok component) →
  ∃ reg template candidate,
    ItemRegistry !! register = Some reg
    ∧ model reg = Some template
    ∧ candidate_cframe cframe template = Return candidate
    ∧ let r := length (heap w) in
      let i := (default_instance instance w).1 in
      let w' := world_after (CreateItem user register instance cframe w) in
      ItemComponent.instance component = r
      ∧ calls w' =
          (calls w ++
            [CallClone r;
             CallPivotTo r candidate;
             CallSetAttribute r "User"
               (AttrNumber (UserId (UserComponent.instance user)));
             CallSetAttribute r "ItemInstanceUUID" (AttrString i);
             CallSetAttribute r "ItemRegisterUUID" (AttrString register);
             CallSetName r i;
             CallSetParentWorkspace r;
             CallAddTag r ITEM;
             CallGetComponent r;
             CallPivotTo r (AdjustCFrame candidate)])%list
      ∧ Pivot <$> heap w' !! r = Some (AdjustCFrame candidate)
      ∧ match cframe with
        | Some cf => candidate = cf
        | None =>
            ∃ part,
              PrimaryPart template = Some part
              ∧ candidate
                = CFrame.new (Vector3.new 0 (Vector3.Y (Size part) / 2) 0)
        end
      ∧ let stamped pose :=
          {| Name := i;
             Pivot := pose;
             Attributes :=
               <["ItemRegisterUUID" := AttrString register]>
                 (<["ItemInstanceUUID" := AttrString i]>
                    (<["User" :=
                         AttrNumber (UserId (UserComponent.instance user))]>
                       (Attributes template)));
             Tags := {[ITEM]} ∪ Tags template;
             PrimaryPart := PrimaryPart template;
             Parts := Parts template |} in
        let bound_at :=
          at_binding user register instance candidate template w in
        heap w !! r = None
        ∧ heap bound_at !! r = Some (stamped candidate)
        ∧ Workspace bound_at = (Workspace w ++ [r])%list
        ∧ getComponent bound_at r = Some component
        ∧ w' = PivotTo r (AdjustCFrame candidate) bound_at
        ∧ heap w' !! r = Some (stamped (AdjustCFrame candidate))
        ∧ Workspace w' = (Workspace w ++ [r])%list.
Proof.
  intros Hok. apply CreateItem_Ok_inv in Hok as Hinv.
  destruct Hinv as (reg & template & cf & Hreg & Hmodel & Hcf & Hbind & ->).
  exists reg, template, cf.
  split; [exact Hreg|]. split; [exact Hmodel|]. split; [exact Hcf|].
  cbv zeta.
  rewrite (CreateItem_spawned _ _ _ _ _ _ _ _ Hreg Hmodel Hcf).
  rewrite Hbind. cbn [world_after].
  split; [reflexivity|]. split; [|split; [|split; [|split_and!]]].
  - rewrite calls_PivotTo, at_binding_calls, <- app_assoc. reflexivity.
  - erewrite PivotTo_lookup by apply at_binding_lookup. reflexivity.
  - destruct cframe as [supplied|]; cbn in Hcf.
    + by injection Hcf.
    + destruct (PrimaryPart template) as [part|]; [|done].
      exists part. split; [done|]. by injection Hcf.
  - by apply lookup_ge_None_2.
  - apply at_binding_lookup.
  - apply at_binding_Workspace.
  - by rewrite getComponent_at_binding_eq, Hbind.
  - reflexivity.
  - erewrite PivotTo_lookup by apply at_binding_lookup. reflexivity.
  - by rewrite Workspace_PivotTo, at_binding_Workspace.
Qed.

(** C7. For every user whose balance is non-negative in every currency
    and every operation of the service ([PurchaseItem], [CreateItem],
    [GetItem]), every balance is still non-negative when the operation
    ends, however it ends; and a purchase whose debit would take a balance
    below zero is rejected with [Forbidden], the user and the world left
    as they were.  The members of the currency enum are distinct. *)
Theorem balances_stay_nonnegative op user w :
  NoDup CurrencyMembers →
  (∀ c, c ∈ CurrencyMembers → (0 ≤ balance user c)%Z) →
  (∀ c, c ∈ CurrencyMembers → (0 ≤ balance (perform op user w).1 c)%Z)
  ∧ (∀ registerUUID position register c,
       ItemRegistry !! registerUUID = Some register →
       c ∈ CurrencyMembers →
       (balance user c - buy_price register c < 0)%Z →
       PurchaseItem user registerUUID position w
         = Build_Outcome user w (Return (Err FORBIDDEN))).
Proof.
  intros Hnd Hpos. split.
  - intros c Hc. destruct op as [registerUUID position| |]; cbn [perform fst].
    + destruct (PurchaseItem_cases user registerUUID position w)
        as [[error ->]|(register & _ & Hfunds & ->)]; [by apply Hpos|].
      rewrite CreateItem_user_attributes, debit_all_member by done.
      apply number_sub_nonneg. by apply Hfunds.
    + rewrite CreateItem_user_attributes. by apply Hpos.
    + by apply Hpos.
  - intros registerUUID position register c Hreg Hc Hneg.
    apply (PurchaseItem_short _ _ _ _ _ c Hreg Hc). lia.
Qed.

(** C8. In [CreateItem], when [getComponent] yields no component for the
    clone that was just spawned and tagged, the call ends in the thrown
    assertion ["component was not initialized!"], not in a typed error,
    and the clone stays in the workspace; and whenever [CreateItem]
    returns a typed error, that error is [NotFound] and no instance was
    created, parented or called, the user being as it was. *)
Theorem CreateItem_binder_failure user register instance cframe w :
  (∀ reg template candidate,
     ItemRegistry !! register = Some reg →
     model reg = Some template →
     candidate_cframe cframe template = Return candidate →
     let w' := at_binding user register instance candidate template w in
     getComponent w' (length (heap w)) = None →
     CreateItem user register instance cframe w
       = Build_Outcome user w' (Throw "component was not initialized!")
     ∧ length (heap w) ∈ Workspace w')
  ∧ (∀ error,
       let out := CreateItem user register instance cframe w in
       completion out = Return (Err error) →
       error = NOT_FOUND
       ∧ user_after out = user
       ∧ heap (world_after out) = heap w
       ∧ Workspace (world_after out) = Workspace w
       ∧ calls (world_after out) = calls w).
Proof.
  split.
  - intros reg template candidate Hreg Hmodel Hcf w' Hnone. subst w'. split.
    + rewrite (CreateItem_spawned _ _ _ _ _ _ _ _ Hreg Hmodel Hcf).
      rewrite getComponent_at_binding_eq in Hnone.
      destruct (componentAttached _ _) eqn:Hbind; [discriminate Hnone|].
      reflexivity.
    + rewrite at_binding_Workspace. apply elem_of_app. right. by left.
  - intros error out Herr. subst out.
    apply CreateItem_Err_inv in Herr as Hreg.
    rewrite CreateItem_not_found in Herr |- * by done.
    cbn in Herr |- *. injection Herr as <-.
    by destruct (default_instance_heap instance w)
      as (-> & -> & ->).
Qed.

(** C10. [CreateItem] does not check that a supplied instance id is
    unused.  Called with the id of an item the user has already placed, on
    a template of the registry and with a binder that builds the
    component, it returns [Ok]; the entry of the placed items under that
    id now holds the new component and the set of ids is the same; the
    old object and the new one are two different children of the
    workspace with the same name. *)
Theorem CreateItem_duplicate_instance
    user register i cframe w reg template candidate old m_old :
  ItemRegistry !! register = Some reg →
  model reg = Some template →
  candidate_cframe cframe template = Return candidate →
  UserComponent.PlacedItems user !! i = Some old →
  heap w !! ItemComponent.instance old = Some m_old →
  Name m_old = i →
  ItemComponent.instance old ∈ Workspace w →
  componentAttached
    (at_binding user register (Some i) candidate template w)
    (length (heap w)) = true →
  let out := CreateItem user register (Some i) cframe w in
  let new := bound user register i (length (heap w)) in
  completion out = Return (Ok new)
  ∧ UserComponent.PlacedItems (user_after out)
    = <[i := new]> (UserComponent.PlacedItems user)
  ∧ UserComponent.PlacedItems (user_after out) !! i = Some new
  ∧ dom (UserComponent.PlacedItems (user_after out))
    = dom (UserComponent.PlacedItems user)
  ∧ ItemComponent.instance new ≠ ItemComponent.instance old
  ∧ ItemComponent.instance old ∈ Workspace (world_after out)
  ∧ ItemComponent.instance new ∈ Workspace (world_after out)
  ∧ Name <$> heap (world_after out) !! ItemComponent.instance old = Some i
  ∧ Name <$> heap (world_after out) !! ItemComponent.instance new = Some i.
Proof.
  intros Hreg Hmodel Hcf Hold Hm Hname Hin Hbind out new. subst out new.
  rewrite (CreateItem_spawned _ _ _ _ _ _ _ _ Hreg Hmodel Hcf).
  rewrite Hbind.
  cbn [completion user_after world_after default_instance fst place
       UserComponent.PlacedItems bound ItemComponent.instance].
  apply lookup_lt_Some in Hm as Hlt.
  split_and!.
  - reflexivity.
  - reflexivity.
  - apply lookup_insert_eq.
  - by apply dom_insert_lookup_L.
  - lia.
  - rewrite Workspace_PivotTo, at_binding_Workspace.
    apply elem_of_app. by left.
  - rewrite Workspace_PivotTo, at_binding_Workspace.
    apply elem_of_app. right. by left.
  - rewrite PivotTo_lookup_ne by lia.
    rewrite at_binding_lookup_old by lia. by rewrite Hm, <- Hname.
  - erewrite PivotTo_lookup by apply at_binding_lookup. reflexivity.
Qed.

(** [GetItem] stays in [WaitForChild] for as long as the workspace has no
    child of the name. *)
Lemma WaitForChild_suspended fuel others n w name :
  (∀ k, FindFirstChild (elapse others n k w) name = None) →
  WaitForChild fuel others n w name = (elapse others n fuel w, Suspended).
Proof.
  revert n w. induction fuel as [|fuel IH]; intros n w Hnever;
    pose proof (Hnever 0) as Hnow; cbn [elapse] in Hnow;
    cbn [WaitForChild elapse]; rewrite Hnow; [done|].
  apply IH. intros k. apply (Hnever (S k)).
Qed.

(** C9, amended.  For every instance id for which the workspace never
    has a child of that name, [GetItem] does not return, however many
    times its thread is resumed: it has no timeout and stays suspended in
    [WaitForChild], so it does not return "absent".  It mutates nothing:
    the world is what the other threads have made of it. *)
Theorem GetItem_never_created others w uuid :
  (∀ n, FindFirstChild (elapse others 0 n w) uuid = None) →
  ∀ fuel, GetItem fuel others w uuid = (elapse others 0 fuel w, Suspended).
Proof.
  intros Hnever fuel. unfold GetItem.
  by rewrite (WaitForChild_suspended _ _ _ _ _ Hnever).
Qed.

End Service.

(** ** The concrete world *)

(** The scenarios of the spec: Alice holds 100 gold; [T1] costs 50 and is
    bought, [T2] costs 200 and is refused, [ghost] is unknown. *)
Example scenario_T1 :
  let out :=
    @PurchaseItem Scenario.services Scenario.alice "T1" None Scenario.empty in
  completion out = Return (Ok (bound Scenario.alice "T1" "guid-0" 0))
  ∧ UserComponent.attributes (user_after out) "Balance_GOLD" = 50%Z
  ∧ size (UserComponent.PlacedItems (user_after out)) = 1.
Proof. vm_compute. done. Qed.

Example scenario_T2 :
  let out :=
    @PurchaseItem Scenario.services Scenario.alice "T2" None Scenario.empty in
  completion out = Return (Err FORBIDDEN)
  ∧ UserComponent.attributes (user_after out) "Balance_GOLD" = 100%Z.
Proof. vm_compute. done. Qed.

Example scenario_ghost :
  completion
    (@PurchaseItem Scenario.services Scenario.alice "ghost" None Scenario.empty)
  = Return (Err NOT_FOUND)
  ∧ completion
      (@CreateItem Scenario.services Scenario.alice "ghost" None None
         Scenario.empty)
    = Return (Err NOT_FOUND).
Proof. vm_compute. done. Qed.

(** Without a working binder the purchase is debited and then aborts. *)
Example scenario_faulty :
  let out :=
    @PurchaseItem Scenario.faulty Scenario.alice "T1" None Scenario.empty in
  completion out = Throw "component was not initialized!"
  ∧ UserComponent.attributes (user_after out) "Balance_GOLD" = 50%Z
  ∧ Workspace (world_after out) = [0].
Proof. vm_compute. done. Qed.

Lemma Scenario_loaded : constructor Scenario.catalogue = Return Scenario.loaded.
Proof. vm_compute. reflexivity. Qed.

Lemma elapse_idle (start n : nat) (w : World) :
  elapse Scenario.idle start n w = w.
Proof. revert start. induction n as [|n IH]; intros start; [done|]. apply IH. Qed.

Lemma PurchaseItem_insufficient_funds_witness :
  let out :=
    @PurchaseItem Scenario.services Scenario.alice "T2" None Scenario.empty in
  completion out = Return (Err FORBIDDEN)
  ∧ user_after out = Scenario.alice
  ∧ world_after out = Scenario.empty.
Proof.
  eapply (@PurchaseItem_insufficient_funds Scenario.services
            Scenario.alice "T2" None Scenario.empty _ "GOLD").
  - vm_compute. reflexivity.
  - compute_done.
  - vm_compute. reflexivity.
Defined.



Lemma PurchaseItem_not_for_sale_witness :
  let out :=
    @PurchaseItem Scenario.services Scenario.alice "T3" None Scenario.empty in
  completion out = Return (Err FORBIDDEN)
  ∧ user_after out = Scenario.alice
  ∧ world_after out = Scenario.empty.
Proof.
  eapply (@PurchaseItem_not_for_sale Scenario.services).
  - vm_compute. reflexivity.
  - reflexivity.
Defined.

Lemma unknown_template_not_found_witness :
  let bought :=
    @PurchaseItem Scenario.services Scenario.alice "ghost" None Scenario.empty in
  let created :=
    @CreateItem Scenario.services Scenario.alice "ghost" None None
      Scenario.empty in
  (completion bought = Return (Err NOT_FOUND)
   ∧ user_after bought = Scenario.alice
   ∧ world_after bought = Scenario.empty)
  ∧ (completion created = Return (Err NOT_FOUND)
     ∧ user_after created = Scenario.alice
     ∧ heap (world_after created) = heap Scenario.empty
     ∧ Workspace (world_after created) = Workspace Scenario.empty
     ∧ calls (world_after created) = calls Scenario.empty).
Proof.
  apply (@unknown_template_not_found Scenario.services).
  vm_compute. reflexivity.
Defined.

Lemma CreateItem_default_pose_witness :
  ∃ template part rest,
    model {| model := Some (prepare Scenario.crate);
             price := Scenario.costs 50 |} = Some template
    ∧ PrimaryPart template = Some part
    ∧ let pose := CFrame.new (Vector3.new 0 (Vector3.Y (Size part) / 2) 0) in
      candidate_cframe None template = Return pose
      ∧ calls
          (world_after
             (@CreateItem Scenario.services Scenario.alice "T1" None None
                Scenario.empty))
        = (calls Scenario.empty ++
            CallClone (length (heap Scenario.empty))
            :: CallPivotTo (length (heap Scenario.empty)) pose :: rest)%list
      ∧ Vector3.X (CFrame.Position pose) = 0%Q
      ∧ Vector3.Z (CFrame.Position pose) = 0%Q
      ∧ (bottom pose part == ground)%Q.
Proof.
  apply (@CreateItem_default_pose Scenario.services Scenario.catalogue).
  - vm_compute. reflexivity.
  - vm_compute. reflexivity.
Defined.

Lemma CreateItem_pose_order_witness :
  let pose := CFrame.new (Vector3.new (5 # 2) 9 (-7 # 4)) in
  let out :=
    @CreateItem Scenario.services Scenario.alice "T1" (Some "crate-1")
      (Some pose) Scenario.empty in
  let component := bound Scenario.alice "T1" "crate-1" 0 in
  (∃ reg template candidate,
     @ItemRegistry Scenario.services !! "T1" = Some reg
     ∧ model reg = Some template
     ∧ candidate_cframe (Some pose) template = Return candidate
     ∧ let r := length (heap Scenario.empty) in
       let i :=
         (@default_instance Scenario.services (Some "crate-1")
            Scenario.empty).1 in
       let w' := world_after out in
       ItemComponent.instance component = r
       ∧ calls w' =
           (calls Scenario.empty ++
             [CallClone r;
              CallPivotTo r candidate;
              CallSetAttribute r "User"
                (AttrNumber (UserId (UserComponent.instance Scenario.alice)));
              CallSetAttribute r "ItemInstanceUUID" (AttrString i);
              CallSetAttribute r "ItemRegisterUUID" (AttrString "T1");
              CallSetName r i;
              CallSetParentWorkspace r;
              CallAddTag r (@ITEM Scenario.services);
              CallGetComponent r;
              CallPivotTo r (@AdjustCFrame Scenario.services candidate)])%list
       ∧ Pivot <$> heap w' !! r
         = Some (@AdjustCFrame Scenario.services candidate)
       ∧ candidate = pose
       ∧ let stamped pose :=
           {| Name := i;
              Pivot := pose;
              Attributes :=
                <["ItemRegisterUUID" := AttrString "T1"]>
                  (<["ItemInstanceUUID" := AttrString i]>
                     (<["User" :=
                          AttrNumber
                            (UserId (UserComponent.instance Scenario.alice))]>
                        (Attributes template)));
              Tags := {[@ITEM Scenario.services]} ∪ Tags template;
              PrimaryPart := PrimaryPart template;
              Parts := Parts template |} in
         let bound_at :=
           @at_binding Scenario.services Scenario.alice "T1" (Some "crate-1")
             candidate template Scenario.empty in
         heap Scenario.empty !! r = None
         ∧ heap bound_at !! r = Some (stamped candidate)
         ∧ Workspace bound_at = (Workspace Scenario.empty ++ [r])%list
         ∧ @getComponent Scenario.services bound_at r = Some component
         ∧ w' = PivotTo r (@AdjustCFrame Scenario.services candidate) bound_at
         ∧ heap w' !! r
           = Some (stamped (@AdjustCFrame Scenario.services candidate))
         ∧ Workspace w' = (Workspace Scenario.empty ++ [r])%list)
  ∧ Pivot <$> heap (world_after out) !! 0
    = Some (CFrame.new (Vector3.new 2 9 (-2)))
  ∧ Workspace (world_after out) = [0]
  ∧ Pivot
      <$> heap
            (@at_binding Scenario.services Scenario.alice "T1"
               (Some "crate-1") pose (prepare Scenario.crate) Scenario.empty)
          !! 0
    = Some pose.
Proof.
  split.
  - apply (@CreateItem_pose_order Scenario.services Scenario.alice "T1"
             (Some "crate-1")
             (Some (CFrame.new (Vector3.new (5 # 2) 9 (-7 # 4))))
             Scenario.empty (bound Scenario.alice "T1" "crate-1" 0)).
    vm_compute. reflexivity.
  - vm_compute. done.
Defined.

Lemma balances_stay_nonnegative_witness :
  (∀ c, c ∈ @CurrencyMembers Scenario.services →
     (0 ≤ UserComponent.attributes
            (@perform Scenario.services (DoPurchaseItem "T1" None)
               Scenario.alice Scenario.empty).1
            (Balance c))%Z)
  ∧ (∀ registerUUID position register c,
       @ItemRegistry Scenario.services !! registerUUID = Some register →
       c ∈ @CurrencyMembers Scenario.services →
       (UserComponent.attributes Scenario.alice (Balance c)
        - buy_price register c < 0)%Z →
       @PurchaseItem Scenario.services Scenario.alice registerUUID position
         Scenario.empty
       = Build_Outcome Scenario.alice Scenario.empty (Return (Err FORBIDDEN))).
Proof.
  apply (@balances_stay_nonnegative Scenario.services).
  - compute_done.
  - apply Forall_forall. compute_done.
Defined.

Lemma CreateItem_binder_failure_witness :
  (let w' :=
     @at_binding Scenario.faulty Scenario.alice "T1" None
       (CFrame.new (Vector3.new 0 (3 / 2) 0)) (prepare Scenario.crate)
       Scenario.empty in
   @CreateItem Scenario.faulty Scenario.alice "T1" None None Scenario.empty
   = Build_Outcome Scenario.alice w' (Throw "component was not initialized!")
   ∧ length (heap Scenario.empty) ∈ Workspace w')
  ∧ (let out :=
       @CreateItem Scenario.faulty Scenario.alice "ghost" None None
         Scenario.empty in
     NOT_FOUND = NOT_FOUND
     ∧ user_after out = Scenario.alice
     ∧ heap (world_after out) = heap Scenario.empty
     ∧ Workspace (world_after out) = Workspace Scenario.empty
     ∧ calls (world_after out) = calls Scenario.empty).
Proof.
  split.
  - apply (proj1 (@CreateItem_binder_failure Scenario.faulty Scenario.alice
                    "T1" None None Scenario.empty)
             {| model := Some (prepare Scenario.crate);
                price := Scenario.costs 50 |}).
    + vm_compute. reflexivity.
    + reflexivity.
    + reflexivity.
    + vm_compute. reflexivity.
  - apply (proj2 (@CreateItem_binder_failure Scenario.faulty Scenario.alice
                    "ghost" None None Scenario.empty) NOT_FOUND).
    vm_compute. reflexivity.
Defined.

Lemma GetItem_never_created_witness :
  @GetItem Scenario.services 1000 Scenario.idle Scenario.empty "ghost"
  = (elapse Scenario.idle 0 1000 Scenario.empty, Suspended).
Proof.
  apply (@GetItem_never_created Scenario.services Scenario.idle Scenario.empty
           "ghost").
  intros n. rewrite elapse_idle. reflexivity.
Defined.

(** C9 as stated fails: on the empty world, with no other thread at work,
    [GetItem] on the id [ghost] never returns, whatever the number of
    resumptions; it does not return "absent". *)
Lemma GetItem_absent_counterexample :
  ¬ ∃ fuel result,
      (@GetItem Scenario.services fuel Scenario.idle Scenario.empty "ghost").2
      = Resumed result.
Proof.
  intros (fuel & result & Hreturned). unfold GetItem in Hreturned.
  rewrite WaitForChild_suspended in Hreturned; [discriminate Hreturned|].
  intros k. rewrite elapse_idle. reflexivity.
Qed.

Lemma CreateItem_duplicate_instance_witness :
  let user := user_after Scenario.once in
  let w := world_after Scenario.once in
  let old := bound Scenario.alice "T1" "crate-1" 0 in
  let out :=
    @CreateItem Scenario.services user "T1" (Some "crate-1") None w in
  let new := bound user "T1" "crate-1" (length (heap w)) in
  completion out = Return (Ok new)
  ∧ UserComponent.PlacedItems (user_after out)
    = <["crate-1" := new]> (UserComponent.PlacedItems user)
  ∧ UserComponent.PlacedItems (user_after out) !! "crate-1" = Some new
  ∧ dom (UserComponent.PlacedItems (user_after out))
    = dom (UserComponent.PlacedItems user)
  ∧ ItemComponent.instance new ≠ ItemComponent.instance old
  ∧ ItemComponent.instance old ∈ Workspace (world_after out)
  ∧ ItemComponent.instance new ∈ Workspace (world_after out)
  ∧ Name <$> heap (world_after out) !! ItemComponent.instance old
    = Some "crate-1"
  ∧ Name <$> heap (world_after out) !! ItemComponent.instance new
    = Some "crate-1".
Proof.
  eapply (@CreateItem_duplicate_instance Scenario.services
            (user_after Scenario.once) "T1" "crate-1" None
            (world_after Scenario.once) _ _ _
            (bound Scenario.alice "T1" "crate-1" 0)).
  - vm_compute. reflexivity.
  - vm_compute. reflexivity.
  - vm_compute. reflexivity.
  - vm_compute. reflexivity.
  - vm_compute. reflexivity.
  - vm_compute. reflexivity.
  - compute_done.
  - vm_compute. reflexivity.
Defined.

(** * Further properties *)

(** ** The constructor *)

Lemma constructor_loop_lookup entries registry loaded :
  NoDup entries.*1 →
  constructor_loop entries registry = Return loaded →
  ∀ key,
    loaded !! key
    = match (list_to_map entries : gmap string Register) !! key with
      | Some register => Some (prepare_register register)
      | None => registry !! key
      end.
Proof.
  revert registry. induction entries as [|[k r] entries IH]; intros registry.
  - intros _ [= <-] key. cbn. by rewrite lookup_empty.
  - intros Hnd. apply NoDup_cons in Hnd as [Hfresh Hnd]. cbn.
    destruct (model r) as [m|] eqn:Hm; [|done].
    destruct (PrimaryPart m) as [part|] eqn:Hpart; [|done].
    intros Hloop key. rewrite (IH _ Hnd Hloop key).
    destruct (decide (k = key)) as [<-|Hne].
    + rewrite (not_elem_of_list_to_map_1 _ _ Hfresh).
      rewrite !lookup_insert_eq. unfold prepare_register. by rewrite Hm.
    + by rewrite !lookup_insert_ne.
Qed.

Lemma constructor_loop_returns entries registry :
  Forall (λ entry, has_primary_part entry.2) entries
  ↔ ∃ loaded, constructor_loop entries registry = Return loaded.
Proof.
  revert registry. induction entries as [|[k r] entries IH]; intros registry.
  - split; [by eexists|done].
  - cbn. split.
    + intros Hall. apply Forall_cons in Hall as [(m & part & Hm & Hpart) Hall].
      cbn in Hm. rewrite Hm, Hpart. by apply IH.
    + intros [loaded Hloop].
      destruct (model r) as [m|] eqn:Hm; [|done].
      destruct (PrimaryPart m) as [part|] eqn:Hpart; [|done].
      apply Forall_cons. split; [by exists m, part|].
      eapply IH. by exists loaded.
Qed.

Lemma constructor_fmap registry loaded :
  constructor registry = Return loaded →
  loaded = prepare_register <$> registry.
Proof.
  intros Hc. apply map_eq. intros key.
  rewrite (constructor_loop_lookup _ _ _ (NoDup_fst_map_to_list _) Hc key).
  rewrite list_to_map_to_list, lookup_fmap.
  by destruct (registry !! key).
Qed.

Lemma constructor_returns registry :
  (∀ key register, registry !! key = Some register → has_primary_part register)
  ↔ ∃ loaded, constructor registry = Return loaded.
Proof.
  unfold constructor. rewrite <- constructor_loop_returns, Forall_forall.
  split.
  - intros Hall [key register] Hin. apply (Hall key).
    by apply elem_of_map_to_list.
  - intros Hall key register Hin.
    apply (Hall (key, register)). by apply elem_of_map_to_list.
Qed.

Lemma prepare_register_idemp register :
  prepare_register (prepare_register register) = prepare_register register.
Proof.
  unfold prepare_register. cbn. f_equal.
  destruct (model register) as [m|]; [|done]. cbn. f_equal.
  unfold prepare. cbn. f_equal.
  - by destruct (PrimaryPart m).
  - rewrite <- list_fmap_compose. by apply list_fmap_ext.
Qed.

(** X1. The constructor returns exactly when every register of the
    registry has a model with a primary part; otherwise it throws. *)
Theorem constructor_accepts registry :
  (∃ loaded, constructor registry = Return loaded)
  ↔ ∀ key register,
      registry !! key = Some register →
      ∃ m part, model register = Some m ∧ PrimaryPart m = Some part.
Proof. symmetry. apply constructor_returns. Qed.

(** X2. When the constructor returns, the registry it leaves has the keys
    and the price tables of the one it was given, and under each key the
    template it was given, pivoted to the origin with the identity
    rotation, every part anchored, and its name, attributes, tags and part
    sizes kept. *)
Theorem constructor_prepares registry loaded :
  constructor registry = Return loaded →
  dom loaded = dom registry
  ∧ ∀ key register,
      registry !! key = Some register →
      ∃ m,
        model register = Some m
        ∧ loaded !! key
          = Some {| model :=
                      Some {| Name := Name m;
                              Pivot := CFrame.new Vector3.zero;
                              Attributes := Attributes m;
                              Tags := Tags m;
                              PrimaryPart := anchor <$> PrimaryPart m;
                              Parts := anchor <$> Parts m |};
                    price := price register |}.
Proof.
  intros Hc. pose proof (constructor_fmap _ _ Hc) as ->. split.
  - apply dom_fmap_L.
  - intros key register Hkey.
    destruct (proj2 (constructor_returns registry) (ex_intro _ _ Hc)
                key register Hkey) as (m & part & Hm & _).
    exists m. split; [done|].
    rewrite lookup_fmap, Hkey. cbn. unfold prepare_register. by rewrite Hm.
Qed.

(** X3. Running the constructor again on the registry it left changes
    nothing: it returns that registry. *)
Theorem constructor_idempotent registry loaded :
  constructor registry = Return loaded →
  constructor loaded = Return loaded.
Proof.
  intros Hc.
  assert (∃ again, constructor loaded = Return again) as [again Hagain].
  { apply constructor_returns. intros key register Hkey.
    destruct (constructor_primary_part _ _ _ _ Hc Hkey) as (m & part & ? & ?).
    by exists m, part. }
  rewrite Hagain. f_equal.
  rewrite (constructor_fmap _ _ Hagain), (constructor_fmap _ _ Hc).
  rewrite <- map_fmap_compose. apply map_fmap_ext.
  intros key register _. apply prepare_register_idemp.
Qed.

(** ** More on the world under [CreateItem] *)

Lemma guids_log (c : Call) (w : World) : guids (log c w) = guids w.
Proof. done. Qed.

Lemma guids_PivotTo (r : nat) (cframe : CFrame.t) (w : World) :
  guids (PivotTo r cframe w) = guids w.
Proof. done. Qed.

Lemma length_PivotTo (r : nat) (cframe : CFrame.t) (w : World) :
  length (heap (PivotTo r cframe w)) = length (heap w).
Proof. cbn. by rewrite length_alter. Qed.

Lemma Clone_guids (m : Model) (w : World) : guids (Clone m w).2 = guids w.
Proof. done. Qed.

Lemma Clone_length (m : Model) (w : World) :
  length (heap (Clone m w).2) = S (length (heap w)).
Proof. cbn. rewrite length_app. cbn. lia. Qed.

Lemma default_instance_guids `{Services} (instance : option string) (w : World) :
  guids (default_instance instance w).2
  = match instance with Some _ => guids w | None => S (guids w) end.
Proof. by destruct instance. Qed.

Section AtBindingMore.

Context `{Services}.
Variables (user : UserComponent.t) (register : string).
Variables (instance : option string) (cframe : CFrame.t) (template : Model).

Local Abbreviation binding w :=
  (at_binding user register instance cframe template w).

Lemma spawn_heap_length (i : string) (r : nat) (w : World) :
  length (heap (spawn user register i cframe r w)) = length (heap w).
Proof. cbn. by rewrite !length_alter. Qed.

Lemma spawn_guids_eq (i : string) (r : nat) (w : World) :
  guids (spawn user register i cframe r w) = guids w.
Proof. done. Qed.

Lemma at_binding_length (w : World) :
  length (heap (binding w)) = S (length (heap w)).
Proof.
  unfold at_binding.
  destruct (default_instance_heap instance w) as (Hheap & _ & _).
  by rewrite heap_log, spawn_heap_length, Clone_length, Hheap.
Qed.

Lemma at_binding_guids (w : World) :
  guids (binding w) = guids (default_instance instance w).2.
Proof.
  unfold at_binding. by rewrite guids_log, spawn_guids_eq, Clone_guids.
Qed.

End AtBindingMore.

Section MorePaths.

Context `{Services}.

(** Every way a call of [CreateItem] can go. *)
Lemma CreateItem_paths user register instance cframe w :
  (ItemRegistry !! register = None
   ∧ CreateItem user register instance cframe w
     = Build_Outcome user (default_instance instance w).2
         (Return (Err NOT_FOUND)))
  ∨ (∃ reg,
       ItemRegistry !! register = Some reg
       ∧ model reg = None
       ∧ CreateItem user register instance cframe w
         = Build_Outcome user (default_instance instance w).2
             (Throw "attempt to index nil with 'Clone'"))
  ∨ (∃ reg template,
       ItemRegistry !! register = Some reg
       ∧ model reg = Some template
       ∧ cframe = None
       ∧ PrimaryPart template = None
       ∧ CreateItem user register instance cframe w
         = Build_Outcome user (Clone template (default_instance instance w).2).2
             (Throw "attempt to index nil with 'Size'"))
  ∨ (∃ reg template cf,
       ItemRegistry !! register = Some reg
       ∧ model reg = Some template
       ∧ candidate_cframe cframe template = Return cf
       ∧ CreateItem user register instance cframe w
         = let r := length (heap w) in
           let i := (default_instance instance w).1 in
           let w' := at_binding user register instance cf template w in
           if componentAttached w' r then
             Build_Outcome (place user i (bound user register i r))
               (PivotTo r (AdjustCFrame cf) w')
               (Return (Ok (bound user register i r)))
           else Build_Outcome user w' (Throw "component was not initialized!")).
Proof.
  destruct (ItemRegistry !! register) as [reg|] eqn:Hreg;
    [|left; split; [done|by apply CreateItem_not_found]].
  right. destruct (model reg) as [template|] eqn:Hmodel.
  - right. destruct (candidate_cframe cframe template) as [cf|msg] eqn:Hcf.
    + right. exists reg, template, cf. split_and!; [done..|].
      apply (CreateItem_spawned _ _ _ _ _ _ _ _ Hreg Hmodel Hcf).
    + left. exists reg, template.
      destruct cframe as [cf|]; [done|]. cbn in Hcf.
      destruct (PrimaryPart template) eqn:Hpart; [done|].
      injection Hcf as <-. split_and!; [done..|].
      unfold CreateItem.
      destruct (default_instance instance w) as [i w1].
      rewrite Hreg, Hmodel. cbn [candidate_cframe]. by rewrite Hpart.
  - left. exists reg. split_and!; [done..|].
    unfold CreateItem.
    destruct (default_instance instance w) as [i w1].
    by rewrite Hreg, Hmodel.
Qed.

End MorePaths.

(** ** More on [PurchaseItem] and [CreateItem] *)

Section MoreService.

Context `{Services}.

Local Abbreviation balance user currency :=
  (UserComponent.attributes user (Balance currency)).

Local Abbreviation debited user register :=
  (fold_left
     (λ user currency,
        debit user (Balance currency) (buy_price register currency))
     CurrencyMembers user).

(** A call of [CreateItem] that throws has not touched the user. *)
Lemma CreateItem_Throw_user user register instance cframe w message :
  completion (CreateItem user register instance cframe w) = Throw message →
  user_after (CreateItem user register instance cframe w) = user.
Proof.
  destruct (CreateItem_paths user register instance cframe w)
    as [[_ ->]|[(reg & _ & _ & ->)|[(reg & template & _ & _ & _ & _ & ->)
       |(reg & template & cf & _ & _ & _ & ->)]]]; try done.
  cbv zeta. by destruct (componentAttached _ _).
Qed.

(** X4. [PurchaseItem] returns [NotFound] exactly when the template id is
    not in the registry, and [Forbidden] exactly when the template is there
    and either has no BUY table or costs, in some currency, more than the
    user holds; whenever it returns a typed error the user and the world
    are as they were. *)
Theorem PurchaseItem_typed_errors user registerUUID position w :
  let out := PurchaseItem user registerUUID position w in
  (completion out = Return (Err NOT_FOUND)
   ↔ ItemRegistry !! registerUUID = None)
  ∧ (completion out = Return (Err FORBIDDEN)
     ↔ ∃ register,
         ItemRegistry !! registerUUID = Some register
         ∧ (price register BUY = None
            ∨ ∃ c, c ∈ CurrencyMembers
                   ∧ (balance user c < buy_price register c)%Z))
  ∧ (∀ error,
       completion out = Return (Err error) →
       user_after out = user ∧ world_after out = w).
Proof.
  intros out. subst out. unfold PurchaseItem.
  destruct (ItemRegistry !! registerUUID) as [register|] eqn:Hreg.
  - destruct (price register BUY) as [table|] eqn:Hbuy.
    + destruct (existsb _ _) eqn:Hcheck.
      * split_and!; [done| |done]. split; [|done]. intros _.
        exists register. split; [done|]. right.
        apply existsb_exists in Hcheck as (c & Hc & Hlt).
        exists c. split; [by apply list_elem_of_In|by apply Z.ltb_lt].
      * assert (Hnever : ∀ error,
          completion (CreateItem (debited user register) registerUUID None
                        position w) ≠ Return (Err error)).
        { intros error Herr. apply CreateItem_Err_inv in Herr. congruence. }
        split_and!.
        -- split; [by intros ?%Hnever|done].
        -- split; [by intros ?%Hnever|].
           intros (register' & [= <-] & [Hnone|(c & Hc & Hlt)]);
             [congruence|].
           apply not_true_iff_false in Hcheck. destruct Hcheck.
           apply existsb_exists. exists c.
           split; [by apply list_elem_of_In|by apply Z.ltb_lt].
        -- by intros error ?%Hnever.
    + split_and!; [done| |done]. split; [|done]. intros _.
      exists register. split; [done|]. by left.
  - split_and!; [done| |done]. split; [done|]. by intros (? & ? & _).
Qed.

(** X5. A purchase that passed its checks and then aborts in [CreateItem]
    is not refunded: the user ends with every currency at the Luau
    difference of the balance and the BUY price the table gives (0 when it
    does not list the currency), which is the balance less exactly the
    price whenever the price is not negative and the balance is at most
    2^53; the placed items are as they were.  The members of the currency
    enum are distinct. *)
Theorem PurchaseItem_no_refund user registerUUID position w message :
  NoDup CurrencyMembers →
  let out := PurchaseItem user registerUUID position w in
  completion out = Throw message →
  ∃ register table,
    ItemRegistry !! registerUUID = Some register
    ∧ price register BUY = Some table
    ∧ (∀ c, c ∈ CurrencyMembers →
         balance (user_after out) c
         = number_sub (balance user c) (default 0%Z (table !! c)))
    ∧ (∀ c, c ∈ CurrencyMembers →
         (0 ≤ default 0 (table !! c))%Z →
         (balance user c ≤ 2 ^ 53)%Z →
         balance (user_after out) c
         = (balance user c - default 0 (table !! c))%Z)
    ∧ UserComponent.PlacedItems (user_after out)
      = UserComponent.PlacedItems user.
Proof.
  intros Hnd out Hthrow. subst out.
  destruct (PurchaseItem_cases user registerUUID position w)
    as [[error Herr]|(register & Hreg & Hfunds & Hcreate)];
    [by rewrite Herr in Hthrow|].
  destruct (price register BUY) as [table|] eqn:Htable; last first.
  { unfold PurchaseItem in Hthrow. by rewrite Hreg, Htable in Hthrow. }
  rewrite Hcreate in Hthrow |- *. exists register, table.
  split; [done|]. split; [done|].
  rewrite (CreateItem_Throw_user _ _ _ _ _ _ Hthrow).
  assert (Hsub : ∀ c, c ∈ CurrencyMembers →
    balance (debited user register) c
    = number_sub (balance user c) (default 0%Z (table !! c))).
  { intros c Hc. rewrite debit_all_member by done.
    by rewrite (buy_price_table _ _ _ Htable). }
  split_and!.
  - exact Hsub.
  - intros c Hc Hprice Hbalance. rewrite (Hsub c Hc).
    specialize (Hfunds c Hc). rewrite (buy_price_table _ _ _ Htable) in Hfunds.
    apply number_sub_small; lia.
  - by destruct (debit_all_frame (buy_price register) CurrencyMembers user)
      as [_ ->].
Qed.

(** X6. On a registry the constructor has accepted, the only error
    [CreateItem] can throw is the assertion on the component: the clone
    has then been spawned and left in the workspace, no component was
    found for it, and the user is as it was. *)
Theorem CreateItem_throws_only_assertion
    registry user register instance cframe w message :
  constructor registry = Return ItemRegistry →
  let out := CreateItem user register instance cframe w in
  completion out = Throw message →
  message = "component was not initialized!"
  ∧ user_after out = user
  ∧ ∃ reg template candidate,
      ItemRegistry !! register = Some reg
      ∧ model reg = Some template
      ∧ candidate_cframe cframe template = Return candidate
      ∧ world_after out
        = at_binding user register instance candidate template w
      ∧ getComponent (world_after out) (length (heap w)) = None
      ∧ length (heap w) ∈ Workspace (world_after out).
Proof.
  intros Hloaded out Hthrow. subst out.
  destruct (CreateItem_paths user register instance cframe w)
    as [[_ Hout]|[(reg & Hreg & Hmodel & _)
       |[(reg & template & Hreg & Hmodel & _ & Hpart & _)
       |(reg & template & cf & Hreg & Hmodel & Hcf & Hout)]]].
  - by rewrite Hout in Hthrow.
  - destruct (constructor_primary_part _ _ _ _ Hloaded Hreg)
      as (m & part & ? & ?). congruence.
  - destruct (constructor_primary_part _ _ _ _ Hloaded Hreg)
      as (m & part & ? & ?). congruence.
  - rewrite Hout in Hthrow |- *. cbv zeta in Hthrow |- *.
    destruct (componentAttached _ _) eqn:Hbind; [done|].
    cbn [completion user_after world_after] in Hthrow |- *.
    injection Hthrow as <-. split_and!; [done..|].
    exists reg, template, cf. split_and!; [done..| |].
    + by rewrite getComponent_at_binding_eq, Hbind.
    + rewrite at_binding_Workspace. apply elem_of_app. right. by left.
Qed.

(** X7. Whatever way it ends, [CreateItem] leaves the attributes of the
    user (the balances among them) as they were, touches no entry of the
    placed items other than the one under the instance id, changes no
    instance that existed before the call, adds at most the clone to the
    children of the workspace and removes none, and only adds to the
    calls made. *)
Theorem CreateItem_frame user register instance cframe w :
  let out := CreateItem user register instance cframe w in
  UserComponent.attributes (user_after out) = UserComponent.attributes user
  ∧ UserComponent.instance (user_after out) = UserComponent.instance user
  ∧ (∀ key,
       key ≠ (default_instance instance w).1 →
       UserComponent.PlacedItems (user_after out) !! key
       = UserComponent.PlacedItems user !! key)
  ∧ (∀ r, r < length (heap w) → heap (world_after out) !! r = heap w !! r)
  ∧ (Workspace (world_after out) = Workspace w
     ∨ Workspace (world_after out) = (Workspace w ++ [length (heap w)])%list)
  ∧ ∃ made, calls (world_after out) = (calls w ++ made)%list.
Proof.
  intros out. subst out.
  destruct (default_instance_heap instance w) as (Hheap & HW & Hcalls).
  destruct (CreateItem_paths user register instance cframe w)
    as [[_ ->]|[(reg & _ & _ & ->)|[(reg & template & _ & _ & _ & _ & ->)
       |(reg & template & cf & _ & _ & _ & ->)]]];
    cbv zeta; try destruct (componentAttached _ _);
    cbn [user_after world_after place UserComponent.attributes
         UserComponent.instance UserComponent.PlacedItems];
    (split; [done|]); (split; [done|]).
  - rewrite Hheap, HW, Hcalls. split_and!; [done|done|by left|].
    exists []. by rewrite app_nil_r.
  - rewrite Hheap, HW, Hcalls. split_and!; [done|done|by left|].
    exists []. by rewrite app_nil_r.
  - split_and!; [done| |left|].
    + intros r Hr. rewrite Clone_lookup_old by (rewrite Hheap; lia).
      by rewrite Hheap.
    + by rewrite Clone_Workspace.
    + rewrite Clone_calls, Hcalls. by eexists.
  - split_and!.
    + intros key Hkey. by rewrite lookup_insert_ne.
    + intros r Hr. rewrite PivotTo_lookup_ne by lia.
      by apply at_binding_lookup_old.
    + right. by rewrite Workspace_PivotTo, at_binding_Workspace.
    + rewrite calls_PivotTo, at_binding_calls, <- app_assoc. by eexists.
  - split_and!; [done| |right|].
    + intros r Hr. by apply at_binding_lookup_old.
    + by rewrite at_binding_Workspace.
    + rewrite at_binding_calls. by eexists.
Qed.

(** X8. [CreateItem] draws exactly one GUID when it is called without an
    instance id, also when it then returns [NotFound] or throws, and none
    when an id is passed. *)
Theorem CreateItem_draws_one_guid user register instance cframe w :
  guids (world_after (CreateItem user register instance cframe w))
  = match instance with
    | Some _ => guids w
    | None => S (guids w)
    end.
Proof.
  rewrite <- default_instance_guids.
  destruct (CreateItem_paths user register instance cframe w)
    as [[_ ->]|[(reg & _ & _ & ->)|[(reg & template & _ & _ & _ & _ & ->)
       |(reg & template & cf & _ & _ & _ & ->)]]];
    cbv zeta; try destruct (componentAttached _ _); cbn [world_after].
  - done.
  - done.
  - by rewrite Clone_guids.
  - by rewrite guids_PivotTo, at_binding_guids.
  - by rewrite at_binding_guids.
Qed.

End MoreService.

(** ** Creation followed by lookup or by another creation *)

Lemma find_app_last {A} (f : A → bool) (l : list A) (x : A) :
  (∀ y, y ∈ l → f y = true → y = x) →
  f x = true →
  List.find f (l ++ [x]) = Some x.
Proof.
  intros Honly Hx. induction l as [|y l IH]; cbn; [by rewrite Hx|].
  destruct (f y) eqn:Hy.
  - f_equal. apply Honly; [by left|done].
  - apply IH. intros z Hz. apply Honly. by right.
Qed.

Section Lookup.

Context `{Services}.

(** [WaitForChild] resumes at the first suspension after which the child
    is there. *)
Lemma WaitForChild_resumes fuel others start n w name r :
  (∀ k, (k < n)%nat → FindFirstChild (elapse others start k w) name = None) →
  FindFirstChild (elapse others start n w) name = Some r →
  (n ≤ fuel)%nat →
  WaitForChild fuel others start w name
  = (elapse others start n w, Resumed r).
Proof.
  revert fuel start w. induction n as [|n IH]; intros fuel start w Hbefore Hnow Hfuel.
  - cbn [elapse] in *. destruct fuel; cbn [WaitForChild]; by rewrite Hnow.
  - destruct fuel as [|fuel]; [lia|].
    pose proof (Hbefore 0 ltac:(lia)) as Hfirst. cbn [elapse] in Hfirst.
    cbn [WaitForChild elapse]. rewrite Hfirst.
    apply IH; [|done|lia].
    intros k Hk. apply (Hbefore (S k)). lia.
Qed.

(** [WaitForChild] leaves the world to the other threads. *)
Lemma WaitForChild_world fuel others start w name :
  ∃ n, (n ≤ fuel)%nat
       ∧ (WaitForChild fuel others start w name).1 = elapse others start n w.
Proof.
  revert start w. induction fuel as [|fuel IH]; intros start w;
    cbn [WaitForChild]; destruct (FindFirstChild w name).
  - by exists 0.
  - by exists 0.
  - exists 0. split; [lia|done].
  - destruct (IH (S start) (others start w)) as (n & Hn & ->).
    exists (S n). split; [lia|done].
Qed.

(** The child [CreateItem] has just parented is the one [FindFirstChild]
    finds under its name, when no older child bore that name. *)
Lemma FindFirstChild_spawned user register instance cf template w :
  let r := length (heap w) in
  let i := (default_instance instance w).1 in
  let w' :=
    PivotTo r (AdjustCFrame cf)
      (at_binding user register instance cf template w) in
  FindFirstChild w i = None →
  FindFirstChild w' i = Some r.
Proof.
  intros r i w' Hnone. subst r w'. unfold FindFirstChild in *.
  rewrite Workspace_PivotTo, at_binding_Workspace.
  apply find_app_last.
  - intros r' Hin Hfound.
    destruct (decide (r' = length (heap w))) as [|Hne]; [done|]. exfalso.
    rewrite PivotTo_lookup_ne in Hfound by done.
    destruct (decide (r' < length (heap w))) as [Hlt|Hge].
    + rewrite at_binding_lookup_old in Hfound by done.
      apply list_elem_of_In in Hin.
      pose proof (find_none _ _ Hnone _ Hin) as Hold. cbn beta in Hold.
      congruence.
    + rewrite (lookup_ge_None_2 (heap (at_binding _ _ _ _ _ _))) in Hfound;
        [done|].
      rewrite at_binding_length. lia.
  - erewrite PivotTo_lookup by apply at_binding_lookup.
    cbn [Name]. by apply bool_decide_eq_true.
Qed.

(** X9. Round trip: once [CreateItem] has returned [Ok], [GetItem] on the
    item's instance id returns that very component at once, without
    waiting and without changing the world, provided no older child of the
    workspace bears that name and Flamework still holds the component. *)
Theorem GetItem_after_CreateItem
    user register instance cframe w component fuel others :
  completion (CreateItem user register instance cframe w)
    = Return (Ok component) →
  let w' := world_after (CreateItem user register instance cframe w) in
  let i := ItemComponent.ItemInstanceUUID (ItemComponent.attributes component) in
  FindFirstChild w i = None →
  componentAttached w' (ItemComponent.instance component) = true →
  GetItem fuel others w' i = (w', Resumed (Some component)).
Proof.
  intros Hok. apply CreateItem_Ok_inv in Hok as Hinv.
  destruct Hinv as (reg & template & cf & Hreg & Hmodel & Hcf & Hbind & ->).
  rewrite (CreateItem_spawned _ _ _ _ _ _ _ _ Hreg Hmodel Hcf), Hbind.
  cbn [world_after bound ItemComponent.attributes ItemComponent.instance
       ItemComponent.ItemInstanceUUID].
  intros Hnone Hheld. unfold GetItem.
  pose proof (FindFirstChild_spawned user register instance cf template w Hnone)
    as Hfind. cbv zeta in Hfind.
  assert (Hwait : ∀ fuel, WaitForChild fuel others 0
      (PivotTo (length (heap w)) (AdjustCFrame cf)
         (at_binding user register instance cf template w))
      (default_instance instance w).1
    = (PivotTo (length (heap w)) (AdjustCFrame cf)
         (at_binding user register instance cf template w),
       Resumed (length (heap w)))).
  { intros [|n]; cbn [WaitForChild]; by rewrite Hfind. }
  rewrite Hwait. f_equal. f_equal. unfold getComponent.
  erewrite PivotTo_lookup by apply at_binding_lookup.
  cbn [mbind option_bind Name Attributes Tags PrimaryPart Parts].
  rewrite Hheld. by rewrite item_attributes_stamped.
Qed.

(** X10. [GetItem] returns as soon as a child of the name is in the
    workspace: if the child first appears after [n] suspensions, the call
    resumes then, with the component Flamework holds for that child or with
    "absent" when it holds none, and the world is what the other threads
    have made of it in those [n] suspensions. *)
Theorem GetItem_resumes fuel others n w uuid r :
  (∀ k, (k < n)%nat → FindFirstChild (elapse others 0 k w) uuid = None) →
  FindFirstChild (elapse others 0 n w) uuid = Some r →
  (n ≤ fuel)%nat →
  GetItem fuel others w uuid
  = (elapse others 0 n w, Resumed (getComponent (elapse others 0 n w) r)).
Proof.
  intros Hbefore Hnow Hfuel. unfold GetItem.
  by rewrite (WaitForChild_resumes _ _ _ _ _ _ _ Hbefore Hnow Hfuel).
Qed.

(** X11. [GetItem] itself never changes the world: however long it waits
    and whatever it returns, the world it leaves is the one it was given
    as the other threads have changed it during its suspensions. *)
Theorem GetItem_mutates_nothing fuel others w uuid :
  ∃ n, (n ≤ fuel)%nat ∧ (GetItem fuel others w uuid).1 = elapse others 0 n w.
Proof.
  destruct (WaitForChild_world fuel others 0 w uuid) as (n & Hn & Hworld).
  exists n. split; [done|]. unfold GetItem.
  by destruct (WaitForChild fuel others 0 w uuid) as [w' [r|]].
Qed.

End Lookup.

Section Created.

Context `{Services}.

Local Abbreviation balance user currency :=
  (UserComponent.attributes user (Balance currency)).

Local Abbreviation debited user register :=
  (fold_left
     (λ user currency,
        debit user (Balance currency) (buy_price register currency))
     CurrencyMembers user).

(** X12. When [CreateItem] returns [Ok], the component it returns carries
    the owner's user id, the instance id and the template id; the object
    it is bound to is a new instance, the last child of the workspace,
    named after the instance id, tagged as an item on top of the
    template's tags, stamped with the three attributes on top of the
    template's, with the template's parts; and the user's placed items
    hold the component under the instance id. *)
Theorem CreateItem_stamps user register instance cframe w component :
  completion (CreateItem user register instance cframe w)
    = Return (Ok component) →
  let out := CreateItem user register instance cframe w in
  let i := (default_instance instance w).1 in
  let r := ItemComponent.instance component in
  ∃ reg template candidate,
    ItemRegistry !! register = Some reg
    ∧ model reg = Some template
    ∧ candidate_cframe cframe template = Return candidate
    ∧ ItemComponent.attributes component
      = {| ItemComponent.User := UserId (UserComponent.instance user);
           ItemComponent.ItemInstanceUUID := i;
           ItemComponent.ItemRegisterUUID := register |}
    ∧ heap w !! r = None
    ∧ heap (world_after out) !! r
      = Some {| Name := i;
                Pivot := AdjustCFrame candidate;
                Attributes :=
                  <["ItemRegisterUUID" := AttrString register]>
                    (<["ItemInstanceUUID" := AttrString i]>
                       (<["User" :=
                            AttrNumber (UserId (UserComponent.instance user))]>
                          (Attributes template)));
                Tags := {[ITEM]} ∪ Tags template;
                PrimaryPart := PrimaryPart template;
                Parts := Parts template |}
    ∧ Workspace (world_after out) = (Workspace w ++ [r])%list
    ∧ UserComponent.PlacedItems (user_after out) !! i = Some component.
Proof.
  intros Hok. apply CreateItem_Ok_inv in Hok as Hinv.
  destruct Hinv as (reg & template & cf & Hreg & Hmodel & Hcf & Hbind & ->).
  cbv zeta. exists reg, template, cf.
  rewrite (CreateItem_spawned _ _ _ _ _ _ _ _ Hreg Hmodel Hcf), Hbind.
  cbn [world_after user_after bound place ItemComponent.attributes
       ItemComponent.instance UserComponent.PlacedItems].
  split_and!; [done..| | | |].
  - by apply lookup_ge_None_2.
  - erewrite PivotTo_lookup by apply at_binding_lookup. reflexivity.
  - by rewrite Workspace_PivotTo, at_binding_Workspace.
  - apply lookup_insert_eq.
Qed.

(** X13. Two calls of [CreateItem] in a row without an instance id, both
    returning [Ok], give two items with the two GUIDs drawn, bound to two
    different objects, and both are among the user's placed items
    afterwards, provided the two GUIDs differ. *)
Theorem CreateItem_twice
    user register1 register2 cframe1 cframe2 w component1 component2 :
  let first := CreateItem user register1 None cframe1 w in
  let second :=
    CreateItem (user_after first) register2 None cframe2 (world_after first) in
  completion first = Return (Ok component1) →
  completion second = Return (Ok component2) →
  GenerateGUID (guids w) ≠ GenerateGUID (S (guids w)) →
  ItemComponent.ItemInstanceUUID (ItemComponent.attributes component1)
    = GenerateGUID (guids w)
  ∧ ItemComponent.ItemInstanceUUID (ItemComponent.attributes component2)
    = GenerateGUID (S (guids w))
  ∧ ItemComponent.instance component1 = length (heap w)
  ∧ ItemComponent.instance component2 = S (length (heap w))
  ∧ UserComponent.PlacedItems (user_after second)
    = <[GenerateGUID (S (guids w)) := component2]>
        (<[GenerateGUID (guids w) := component1]>
           (UserComponent.PlacedItems user))
  ∧ UserComponent.PlacedItems (user_after second) !! GenerateGUID (guids w)
    = Some component1
  ∧ UserComponent.PlacedItems (user_after second) !! GenerateGUID (S (guids w))
    = Some component2.
Proof.
  intros first second Hok1 Hok2 Hdiff. subst first second.
  apply CreateItem_Ok_inv in Hok1 as Hinv.
  destruct Hinv as (reg1 & tm1 & cf1 & Hreg1 & Hmodel1 & Hcf1 & Hbind1 & ->).
  rewrite (CreateItem_spawned _ _ _ _ _ _ _ _ Hreg1 Hmodel1 Hcf1), Hbind1
    in Hok2 |- *.
  cbn [user_after world_after default_instance fst] in Hok2 |- *.
  set (user1 := place user _ _) in *.
  set (w1 := PivotTo _ _ _) in *.
  assert (Hguids : guids w1 = S (guids w)).
  { unfold w1. by rewrite guids_PivotTo, at_binding_guids. }
  assert (Hlen : length (heap w1) = S (length (heap w))).
  { unfold w1. by rewrite length_PivotTo, at_binding_length. }
  apply CreateItem_Ok_inv in Hok2 as Hinv.
  destruct Hinv as (reg2 & tm2 & cf2 & Hreg2 & Hmodel2 & Hcf2 & Hbind2 & ->).
  rewrite (CreateItem_spawned _ _ _ _ _ _ _ _ Hreg2 Hmodel2 Hcf2), Hbind2.
  cbn [user_after default_instance fst bound ItemComponent.attributes
       ItemComponent.ItemInstanceUUID ItemComponent.instance].
  rewrite Hguids, Hlen.
  split_and!; [done..| | |].
  - reflexivity.
  - cbn [place UserComponent.PlacedItems].
    rewrite lookup_insert_ne by done. unfold user1. cbn [place UserComponent.PlacedItems].
    apply lookup_insert_eq.
  - cbn [place UserComponent.PlacedItems]. apply lookup_insert_eq.
Qed.

(** X14. A purchase goes through whenever nothing stands in its way: for a
    template of the registry with a BUY table, a user who holds the price
    in every currency, a model and a pose to spawn it at, and a binder
    that builds the component, [PurchaseItem] returns [Ok] with the
    component of the new object under the GUID drawn. *)
Theorem PurchaseItem_succeeds
    user registerUUID position w register table template candidate :
  ItemRegistry !! registerUUID = Some register →
  price register BUY = Some table →
  (∀ c, c ∈ CurrencyMembers → (buy_price register c ≤ balance user c)%Z) →
  model register = Some template →
  candidate_cframe position template = Return candidate →
  componentAttached
    (at_binding (debited user register) registerUUID None candidate template w)
    (length (heap w)) = true →
  completion (PurchaseItem user registerUUID position w)
  = Return (Ok (bound user registerUUID (GenerateGUID (guids w))
                  (length (heap w)))).
Proof.
  intros Hreg Hbuy Hfunds Hmodel Hcf Hbind. unfold PurchaseItem.
  rewrite Hreg, Hbuy.
  destruct (existsb _ _) eqn:Hcheck.
  - apply existsb_exists in Hcheck as (c & Hc & Hlt).
    apply Z.ltb_lt in Hlt. apply list_elem_of_In in Hc.
    specialize (Hfunds c Hc). lia.
  - rewrite (CreateItem_spawned _ _ _ _ _ _ _ _ Hreg Hmodel Hcf), Hbind.
    cbn [completion default_instance fst]. unfold bound.
    by destruct (debit_all_frame (buy_price register) CurrencyMembers user)
      as [-> _].
Qed.

End Created.

(** ** Purchases in a row, and the constructor's assertions *)

Section Spending.

Context `{Services}.

Local Abbreviation balance user currency :=
  (UserComponent.attributes user (Balance currency)).

(** X15. No double spending: after a purchase that returned [Ok], a second
    purchase of the same template is refused with [Forbidden], the user and
    the world left as the first purchase made them, whenever the user held
    in some currency less than twice the price.  The members of the
    currency enum are distinct. *)
Theorem PurchaseItem_twice_refused
    user registerUUID position1 position2 w register component c :
  NoDup CurrencyMembers →
  ItemRegistry !! registerUUID = Some register →
  c ∈ CurrencyMembers →
  (balance user c < 2 * buy_price register c)%Z →
  let first := PurchaseItem user registerUUID position1 w in
  completion first = Return (Ok component) →
  PurchaseItem (user_after first) registerUUID position2 (world_after first)
  = Build_Outcome (user_after first) (world_after first)
      (Return (Err FORBIDDEN)).
Proof.
  intros Hnd Hreg Hc Hlt first Hok. subst first.
  apply (PurchaseItem_short _ _ _ _ _ c Hreg Hc).
  destruct (PurchaseItem_cases user registerUUID position1 w)
    as [[error Herr]|(register' & Hreg' & Hfunds & Hcreate)];
    [by rewrite Herr in Hok|].
  assert (register' = register) as -> by congruence.
  rewrite Hcreate, CreateItem_user_attributes, debit_all_member by done.
  specialize (Hfunds c Hc). rewrite number_sub_close by lia. lia.
Qed.

End Spending.

Lemma constructor_loop_throws entries registry message :
  constructor_loop entries registry = Throw message →
  ∃ key register,
    (key, register) ∈ entries
    ∧ ((model register = None
        ∧ message
          = "Item model for item with id '" +:+ key +:+ "' does not exist!")
       ∨ ∃ m,
           model register = Some m
           ∧ PrimaryPart m = None
           ∧ message = "Item model " +:+ Name m +:+ " has no primary part!").
Proof.
  revert registry. induction entries as [|[k r] entries IH]; intros registry;
    [done|]. cbn.
  destruct (model r) as [m|] eqn:Hm.
  - destruct (PrimaryPart m) as [part|] eqn:Hpart.
    + intros Hloop. destruct (IH _ Hloop) as (key & register & Hin & Hwhy).
      exists key, register. split; [by right|done].
    + intros [= <-]. exists k, r. split; [by left|]. right. by exists m.
  - intros [= <-]. exists k, r. split; [by left|]. by left.
Qed.

(** X16. When the constructor throws, the message names a register of the
    registry that is at fault: one without a model, named by its key, or
    one whose model has no primary part, named by the model's name. *)
Theorem constructor_throws registry message :
  constructor registry = Throw message →
  ∃ key register,
    registry !! key = Some register
    ∧ ((model register = None
        ∧ message
          = "Item model for item with id '" +:+ key +:+ "' does not exist!")
       ∨ ∃ m,
           model register = Some m
           ∧ PrimaryPart m = None
           ∧ message = "Item model " +:+ Name m +:+ " has no primary part!").
Proof.
  intros Hthrow.
  destruct (constructor_loop_throws _ _ _ Hthrow)
    as (key & register & Hin & Hwhy).
  exists key, register. split; [by apply elem_of_map_to_list|done].
Qed.

(** ** The further properties on the concrete world *)

Lemma constructor_prepares_witness :
  dom Scenario.loaded = dom Scenario.catalogue
  ∧ ∀ key register,
      Scenario.catalogue !! key = Some register →
      ∃ m,
        model register = Some m
        ∧ Scenario.loaded !! key
          = Some {| model :=
                      Some {| Name := Name m;
                              Pivot := CFrame.new Vector3.zero;
                              Attributes := Attributes m;
                              Tags := Tags m;
                              PrimaryPart := anchor <$> PrimaryPart m;
                              Parts := anchor <$> Parts m |};
                    price := price register |}.
Proof.
  apply (constructor_prepares Scenario.catalogue Scenario.loaded).
  vm_compute. reflexivity.
Defined.

Lemma constructor_idempotent_witness :
  constructor Scenario.loaded = Return Scenario.loaded.
Proof.
  apply (constructor_idempotent Scenario.catalogue Scenario.loaded).
  vm_compute. reflexivity.
Defined.

Lemma PurchaseItem_no_refund_witness :
  let out :=
    @PurchaseItem Scenario.faulty Scenario.alice "T1" None Scenario.empty in
  (∃ register table,
     @ItemRegistry Scenario.faulty !! "T1" = Some register
     ∧ price register BUY = Some table
     ∧ (∀ c, c ∈ @CurrencyMembers Scenario.faulty →
          UserComponent.attributes (user_after out) (Balance c)
          = number_sub (UserComponent.attributes Scenario.alice (Balance c))
              (default 0%Z (table !! c)))
     ∧ (∀ c, c ∈ @CurrencyMembers Scenario.faulty →
          (0 ≤ default 0 (table !! c))%Z →
          (UserComponent.attributes Scenario.alice (Balance c) ≤ 2 ^ 53)%Z →
          UserComponent.attributes (user_after out) (Balance c)
          = (UserComponent.attributes Scenario.alice (Balance c)
             - default 0 (table !! c))%Z)
     ∧ UserComponent.PlacedItems (user_after out)
       = UserComponent.PlacedItems Scenario.alice)
  ∧ completion out = Throw "component was not initialized!"
  ∧ UserComponent.attributes Scenario.alice "Balance_GOLD" = 100%Z
  ∧ UserComponent.attributes (user_after out) "Balance_GOLD" = 50%Z
  ∧ size (UserComponent.PlacedItems (user_after out)) = 0.
Proof.
  split.
  - apply (@PurchaseItem_no_refund Scenario.faulty Scenario.alice "T1" None
             Scenario.empty "component was not initialized!").
    + compute_done.
    + vm_compute. reflexivity.
  - vm_compute. done.
Defined.

Lemma CreateItem_throws_only_assertion_witness :
  let out :=
    @CreateItem Scenario.faulty Scenario.alice "T1" None None Scenario.empty in
  "component was not initialized!" = "component was not initialized!"
  ∧ user_after out = Scenario.alice
  ∧ ∃ reg template candidate,
      @ItemRegistry Scenario.faulty !! "T1" = Some reg
      ∧ model reg = Some template
      ∧ candidate_cframe None template = Return candidate
      ∧ world_after out
        = @at_binding Scenario.faulty Scenario.alice "T1" None candidate
            template Scenario.empty
      ∧ @getComponent Scenario.faulty (world_after out)
          (length (heap Scenario.empty)) = None
      ∧ length (heap Scenario.empty) ∈ Workspace (world_after out).
Proof.
  apply (@CreateItem_throws_only_assertion Scenario.faulty Scenario.catalogue
           Scenario.alice "T1" None None Scenario.empty
           "component was not initialized!").
  - vm_compute. reflexivity.
  - vm_compute. reflexivity.
Defined.

Lemma GetItem_after_CreateItem_witness :
  let w' := world_after Scenario.once in
  @GetItem Scenario.services 3 Scenario.idle w' "crate-1"
  = (w', Resumed (Some (bound Scenario.alice "T1" "crate-1" 0))).
Proof.
  apply (@GetItem_after_CreateItem Scenario.services Scenario.alice "T1"
           (Some "crate-1") None Scenario.empty
           (bound Scenario.alice "T1" "crate-1" 0) 3 Scenario.idle).
  - vm_compute. reflexivity.
  - vm_compute. reflexivity.
  - vm_compute. reflexivity.
Defined.

Lemma GetItem_resumes_witness :
  @GetItem Scenario.services 5 Scenario.late Scenario.empty "crate-1"
  = (elapse Scenario.late 0 2 Scenario.empty,
     Resumed
       (@getComponent Scenario.services
          (elapse Scenario.late 0 2 Scenario.empty) 0)).
Proof.
  apply (@GetItem_resumes Scenario.services 5 Scenario.late 2 Scenario.empty
           "crate-1" 0).
  - intros [|[|k]] Hk; [vm_compute; reflexivity..|lia].
  - vm_compute. reflexivity.
  - lia.
Defined.

Lemma CreateItem_stamps_witness :
  let out :=
    @CreateItem Scenario.services Scenario.alice "T1" (Some "crate-1") None
      Scenario.empty in
  let i :=
    (@default_instance Scenario.services (Some "crate-1") Scenario.empty).1 in
  let r := ItemComponent.instance (bound Scenario.alice "T1" "crate-1" 0) in
  ∃ reg template candidate,
    @ItemRegistry Scenario.services !! "T1" = Some reg
    ∧ model reg = Some template
    ∧ candidate_cframe None template = Return candidate
    ∧ ItemComponent.attributes (bound Scenario.alice "T1" "crate-1" 0)
      = {| ItemComponent.User := UserId (UserComponent.instance Scenario.alice);
           ItemComponent.ItemInstanceUUID := i;
           ItemComponent.ItemRegisterUUID := "T1" |}
    ∧ heap Scenario.empty !! r = None
    ∧ heap (world_after out) !! r
      = Some {| Name := i;
                Pivot := @AdjustCFrame Scenario.services candidate;
                Attributes :=
                  <["ItemRegisterUUID" := AttrString "T1"]>
                    (<["ItemInstanceUUID" := AttrString i]>
                       (<["User" :=
                            AttrNumber
                              (UserId (UserComponent.instance Scenario.alice))]>
                          (Attributes template)));
                Tags := {[@ITEM Scenario.services]} ∪ Tags template;
                PrimaryPart := PrimaryPart template;
                Parts := Parts template |}
    ∧ Workspace (world_after out) = (Workspace Scenario.empty ++ [r])%list
    ∧ UserComponent.PlacedItems (user_after out) !! i
      = Some (bound Scenario.alice "T1" "crate-1" 0).
Proof.
  apply (@CreateItem_stamps Scenario.services Scenario.alice "T1"
           (Some "crate-1") None Scenario.empty
           (bound Scenario.alice "T1" "crate-1" 0)).
  vm_compute. reflexivity.
Defined.

Lemma CreateItem_twice_witness :
  let first :=
    @CreateItem Scenario.services Scenario.alice "T1" None None Scenario.empty in
  let second :=
    @CreateItem Scenario.services (user_after first) "T2" None None
      (world_after first) in
  let component1 := bound Scenario.alice "T1" "guid-0" 0 in
  let component2 := bound Scenario.alice "T2" "guid-1" 1 in
  ItemComponent.ItemInstanceUUID (ItemComponent.attributes component1)
    = @GenerateGUID Scenario.services (guids Scenario.empty)
  ∧ ItemComponent.ItemInstanceUUID (ItemComponent.attributes component2)
    = @GenerateGUID Scenario.services (S (guids Scenario.empty))
  ∧ ItemComponent.instance component1 = length (heap Scenario.empty)
  ∧ ItemComponent.instance component2 = S (length (heap Scenario.empty))
  ∧ UserComponent.PlacedItems (user_after second)
    = <[@GenerateGUID Scenario.services (S (guids Scenario.empty))
        := component2]>
        (<[@GenerateGUID Scenario.services (guids Scenario.empty)
           := component1]>
           (UserComponent.PlacedItems Scenario.alice))
  ∧ UserComponent.PlacedItems (user_after second)
      !! @GenerateGUID Scenario.services (guids Scenario.empty)
    = Some component1
  ∧ UserComponent.PlacedItems (user_after second)
      !! @GenerateGUID Scenario.services (S (guids Scenario.empty))
    = Some component2.
Proof.
  apply (@CreateItem_twice Scenario.services Scenario.alice "T1" "T2" None
           None Scenario.empty (bound Scenario.alice "T1" "guid-0" 0)
           (bound Scenario.alice "T2" "guid-1" 1)).
  - vm_compute. reflexivity.
  - vm_compute. reflexivity.
  - vm_compute. discriminate.
Defined.

Lemma PurchaseItem_succeeds_witness :
  completion
    (@PurchaseItem Scenario.services Scenario.alice "T1" None Scenario.empty)
  = Return
      (Ok (bound Scenario.alice "T1"
             (@GenerateGUID Scenario.services (guids Scenario.empty))
             (length (heap Scenario.empty)))).
Proof.
  eapply (@PurchaseItem_succeeds Scenario.services Scenario.alice "T1" None
            Scenario.empty).
  - vm_compute. reflexivity.
  - reflexivity.
  - apply Forall_forall. compute_done.
  - reflexivity.
  - reflexivity.
  - vm_compute. reflexivity.
Defined.

Lemma PurchaseItem_twice_refused_witness :
  let first :=
    @PurchaseItem Scenario.services Scenario.bob "T1" None Scenario.empty in
  @PurchaseItem Scenario.services (user_after first) "T1" None
    (world_after first)
  = Build_Outcome (user_after first) (world_after first)
      (Return (Err FORBIDDEN)).
Proof.
  eapply (@PurchaseItem_twice_refused Scenario.services Scenario.bob "T1" None
            None Scenario.empty _ _ "GOLD").
  - compute_done.
  - vm_compute. reflexivity.
  - compute_done.
  - vm_compute. reflexivity.
  - vm_compute. reflexivity.
Defined.

Lemma constructor_throws_witness :
  ∃ key register,
    Scenario.incomplete !! key = Some register
    ∧ ((model register = None
        ∧ "Item model for item with id 'T9' does not exist!"
          = "Item model for item with id '" +:+ key +:+ "' does not exist!")
       ∨ ∃ m,
           model register = Some m
           ∧ PrimaryPart m = None
           ∧ "Item model for item with id 'T9' does not exist!"
             = "Item model " +:+ Name m +:+ " has no primary part!").
Proof.
  apply (constructor_throws Scenario.incomplete
           "Item model for item with id 'T9' does not exist!").
  vm_compute. reflexivity.
Defined.
